(* ===== verification/_CoqProject ===== *)
-Q . S2P
Prelude.v
PyBuiltins.v
Metadata.v
Mixer.v
Widgets.v
Scanner.v
Playback.v
EventLoop.v
Timeline.v
Scenarios.v
