(* ===== verification/Prelude.v ===== *)
(** * A verification development of the MP3 player (src/main.py)

    ** The program
    [src/main.py] is one PyQt6 class, [Mp3Player], wired to two
    collaborators it only calls: eyed3 (tag reading) and
    pygame.mixer.music (decoding and output).  Its parts:
    - the library scanner: [open_folder] (lines 95-111) lists a folder,
      keeps the names ending in [".mp3"], derives artist and title from
      the file name with [split_artist_title] (113-119) and duration and
      size with [get_song_info] (74-93), and appends one tree row per file;
    - the playback session: [toggle_play] (121-145), [play_previous]
      (147-154), [play_next] (156-163), [set_volume] (165-167) and
      [update_progress] (169-172), which read and write the attributes
      [__init__] (12-72) creates (attributes at 18-22, the slider at 44-47,
      the bar at 49-51, the connections at 36-72), the tree's selection, the progress bar
      and the mixer;
    - the event loop: Qt runs the connected handler of each click, slider
      move, dialog result and 1-second timer tick to completion, one at a
      time (lines 35-72 and 174-178); the volume slider (44-47) reaches
      [set_volume] through [QSlider.setValue] and [valueChanged], the
      timer (70-72) calls [update_progress];
    - the console: [toggle_play]'s [except] prints the caught exception
      (line 142).

    ** Files, in dependency order
    - [Prelude] (this file): Python exceptions [exc], [outcome], the
      statement monad [PyM] (state passing in which an exception keeps
      the assignments made before it, as Python does), [py_try] for
      [try/except] and [py_for] for [for] loops, their notation in
      [py_scope], the hint databases [py] and [py_rw], the tactics
      [py_run] and [str_simpl], and string lemmas.
    - [PyBuiltins]: executable models of the built-ins the program uses:
      [str(int)] ([py_str_int]), [format(n, '02d')], [c in s],
      [s.split('-', 1)], [s.endswith], [posixpath.join] and [basename],
      [int(float)] on binary64 floats (truncation; [nan] and [inf] raise)
      and [int / int]; with their specifications (split at the first
      occurrence, [endswith] as a suffix, [int(str(n)) = n], basename
      undoes join, [v / 100] in [[0.0, 1.0]] and monotone on the slider's
      range, the last two by exhaustive evaluation over [0..100]).
    - [Metadata]: the read-only environment [FileSystem] (listings, sizes,
      eyed3 results) and [get_song_info] with its [try] block
      [song_info_try] and the labels [duration_label], [size_label].
    - [Mixer]: the interface [AudioMixer] (a class of the six calls plus
      the passage of time and three observations) with its laws
      [AudioMixerLaws]; module [Pygame] models pygame 2's music channel
      and proves the laws.  Every session theorem holds for any mixer
      satisfying the laws.
    - [Widgets]: the [Player] record (the object's attributes, the rows
      and single selection of the tree, the progress bar, the mixer, the
      volume slider and the lines printed on stdout), the setters, the
      tree, bar and slider calls after Qt 6 ([QProgressBar]'s busy mode,
      [QAbstractSlider]'s bounding and change-only [valueChanged]), and
      [init_player], [init_slider] and [init_bar] ([__init__]'s
      attributes and widgets).
    - [Scanner]: [split_artist_title], [scan_entry] (one row),
      [open_folder_entry] (the loop body), [open_folder], and the
      reference fold [scan_entries] the loop is proved equal to.
    - [Playback]: the handlers and [print_playback_error];
      [toggle_result] lists the seven states [toggle_play] can leave;
      [next_moves] is the relation of Next clicks that move the
      selection, with the variant [rows_ahead].
    - [EventLoop]: [event], [move_slider] (the slider's signal), [dispatch],
      [step_app] and [run] (an exception
      escaping a slot aborts the application, as PyQt6 does), the step
      relation's closure [reachable], the invariant [player_inv] with a
      decision procedure [player_invb], the spec's Stopped / Playing /
      Paused machine [spec_step] and the abstraction [abstract].
    - [Timeline]: runs of [ticks n] timer expiries against the [Pygame]
      channel, in closed form.
    - [Scenarios]: a concrete folder and decoder, runs of the event loop
      evaluated by [vm_compute], and the instances of the theorems.

    ** What is proved
    - Functional behaviour of every handler on every branch, errors
      included ([toggle_play_cases], [open_folder_spec],
      [split_artist_title_spec], [get_song_info_Ok], the navigation and
      volume lemmas); [open_folder]'s monadic loop equals the reference
      fold [scan_entries].
    - The invariant of reachable states ([reachable_inv], by the
      induction principle [reachable_by_handler], one obligation per
      handler): the selection is a row, every row's title ends with
      [".mp3"] and its duration and size columns are what [get_song_info]
      returned, a playing session has a non-empty identity key, the
      slider stays in [0..100] and the mixer's volume is its value over
      100, the progress bar stays in its range.  Corollaries: the rows
      are well typed and never show ["N/A"] ([reachable_rows_typed]).
      A second invariant ties the bar's range to the last track's
      duration ([reachable_bar_range]).
    - Liveness and termination: a playing track always reaches its end
      within [ceil(len / 1000)] ticks, and the session still reports
      playing ([track_end_reached]); while it lasts the stored position
      follows the channel ([track_progress]); Next clicks that move the
      selection cannot go on forever ([next_clicks_terminate], well
      founded by the variant [rows_ahead]); the progress bar shows
      [min(seconds played, d)] for a range [[0..d]] ([track_bar]).
    - Errors: [toggle_play] prints one diagnostic line exactly when the
      reload sequence raises ([toggle_play_reports_failure]); the slider
      bounds any value it is given ([move_slider_spec]).
    - Refinement: on such states [toggle_play] implements the spec's Play
      transitions ([toggle_play_refines]); Next while playing does not
      ([play_next_breaks_spec]).
    - Round trips: the duration label reads back as the duration, the
      artist and title re-join to the file name, basename undoes join.
    - Bounds: volume in [[0.0, 1.0]] and monotone, positions [>= -1],
      seconds field in [0..59], size label in whole MiB.
    - The divergences of the code from the spec as theorems: an untagged
      file aborts the scan with [UnboundLocalError], and every exception
      escaping [open_folder] (an unreadable folder or file size included)
      aborts the application ([open_folder_aborts]); a failed load leaves
      a stale identity key so the next Play "resumes" the wrong track;
      titles identify tracks; Next and Previous while playing pause
      ([play_previous_while_playing]); titles keep their extension; the
      end of a track is not handled, and Play cannot replay an ended
      track: the session reports playing in silence
      ([play_after_track_end]); the spec's
      session invariant fails in reachable states
      ([spec_session_invariant_fails], by two concrete runs); after a
      folder change during playback the first Play pauses the old track
      ([reopen_then_play_pauses]).

    ** Bounds and fuel
    No definition needs fuel: the loops are structural ([py_for] over the
    listing, recursion on strings), [fold_left] runs the event loop over
    a finite list of events; the timer's runs are lists [ticks n] whose
    length the liveness theorem bounds by the track's length.  Python ints are unbounded and are [Z]; the
    C [int] conversions of Qt's [setValue]/[setRange] are not modelled
    (durations and positions stay far below [2^31]).  Python floats are
    primitive binary64 floats; [py_true_div] is exact division of the
    converted operands, valid for operands below [2^53] (the slider's
    values are [0..100]).  Strings are ASCII [String.string]; the program
    only matches the ASCII ['-'], ['/'] and [".mp3"], which never occur
    inside a multi-byte UTF-8 character.

    ** Not modelled
    The parts listed as partly modelled stop where the program stops
    computing: [__init__]'s window title, geometry, column count and
    widths, header labels, buttons, layouts and menu (lines 13-16, 24-43,
    53-68) only build the presentation, and what they connect is
    modelled as the events of [EventLoop]; the collaborators are
    libraries the program only calls, modelled by their results.  So:
    rendering, layout, window geometry and column widths (presentation
    only); the text of the printed line (the console records the
    exception, not the library's message [str(e)]); audio decoding and output inside pygame (the mixer
    is the interface [AudioMixer]); eyed3's and the file system's
    internals (their results are the fields of [FileSystem], fixed during
    a run). *)

From Stdlib Require Import ZArith List String.
From stdpp Require Import base tactics decidable.
Import ListNotations.

(** ** Python exceptions and outcomes *)

(** The exceptions that the modelled code can raise or catch. *)
Inductive exc : Type :=
| UnboundLocalError   (** reading a local variable that was never bound *)
| AttributeError      (** attribute access on [None] *)
| ValueError          (** [int(nan)], bad unpacking *)
| OverflowError       (** [int(inf)] *)
| OSError             (** [os.listdir] / [os.path.getsize] failures *)
| ZeroDivisionError   (** [x / 0] *)
| PygameError.        (** [pygame.mixer.music.load] / [play] failures *)

#[export] Instance exc_eq_dec : EqDecision exc.
Proof. solve_decision. Defined.

(** The result of evaluating Python code: a value or a raised exception. *)
Inductive outcome (A : Type) : Type :=
| Ok (a : A)
| Raise (e : exc).
Arguments Ok {A} a.
Arguments Raise {A} e.

Definition outcome_bind {A B} (o : outcome A) (k : A -> outcome B) : outcome B :=
  match o with
  | Ok a => k a
  | Raise e => Raise e
  end.

Definition is_ok {A} (o : outcome A) : bool :=
  match o with Ok _ => true | Raise _ => false end.

(** ** The statement monad

    A method of [Mp3Player] runs on the object's state [S]; it returns an
    outcome together with the state reached.  On [Raise] the state is the
    one at the point of the raise: Python does not roll back the
    assignments made before an exception. *)
Definition PyM (S A : Type) : Type := S -> outcome A * S.

Section Monad.
Context {S : Type}.

Definition py_ret {A} (a : A) : PyM S A := fun s => (Ok a, s).

Definition py_bind {A B} (m : PyM S A) (k : A -> PyM S B) : PyM S B :=
  fun s => match m s with
           | (Ok a, s') => k a s'
           | (Raise e, s') => (Raise e, s')
           end.

Definition py_raise {A} (e : exc) : PyM S A := fun s => (Raise e, s).

Definition py_get : PyM S S := fun s => (Ok s, s).

Definition py_modify (f : S -> S) : PyM S unit := fun s => (Ok tt, f s).

(** Evaluate a pure Python expression that may raise. *)
Definition py_lift {A} (o : outcome A) : PyM S A := fun s => (o, s).

(** [try: m except Exception: h]. *)
Definition py_try {A} (m : PyM S A) (h : exc -> PyM S A) : PyM S A :=
  fun s => match m s with
           | (Raise e, s') => h e s'
           | r => r
           end.

(** [for x in l: body(x)]: stops at the first exception. *)
Fixpoint py_for {A} (l : list A) (body : A -> PyM S unit) : PyM S unit :=
  match l with
  | [] => py_ret tt
  | x :: l' => py_bind (body x) (fun _ => py_for l' body)
  end.
End Monad.

Declare Scope py_scope.
Delimit Scope py_scope with py.
Notation "x <- m ;; k" := (py_bind m (fun x => k))
  (at level 100, m at next level, right associativity) : py_scope.
Notation "m ;; k" := (py_bind m (fun _ => k)) : py_scope.

(** ** Generic lemmas on the monad *)

Create HintDb py discriminated.
Create Rewrite HintDb py_rw.

Section MonadLemmas.
Context {S : Type}.

Lemma py_bind_ret {A B} (a : A) (k : A -> PyM S B) s :
  py_bind (py_ret a) k s = k a s.
Proof. reflexivity. Qed.

Lemma py_bind_ok {A B} (m : PyM S A) (k : A -> PyM S B) s a s' :
  m s = (Ok a, s') -> py_bind m k s = k a s'.
Proof. intros Hm. unfold py_bind. by rewrite Hm. Qed.

Lemma py_bind_raise {A B} (m : PyM S A) (k : A -> PyM S B) s e s' :
  m s = (Raise e, s') -> py_bind m k s = (Raise e, s').
Proof. intros Hm. unfold py_bind. by rewrite Hm. Qed.

Lemma py_for_app {A} (l1 l2 : list A) (body : A -> PyM S unit) s :
  py_for (l1 ++ l2) body s = py_bind (py_for l1 body) (fun _ => py_for l2 body) s.
Proof.
  revert s. induction l1 as [|x l1 IH]; intros s; [done |].
  simpl. unfold py_bind at 1 2 3. destruct (body x s) as [[] s']; [| done].
  apply IH.
Qed.
End MonadLemmas.

#[export] Hint Rewrite @py_bind_ret : py_rw.

(** [py_run] evaluates the monadic plumbing of a goal about [m s]. *)
Ltac py_run :=
  repeat progress (cbv beta iota zeta delta [py_bind py_ret py_raise py_get py_modify py_lift py_try] in *);
  try done.

(** ** Generic lemmas on options and lists *)

Lemma outcome_bind_ok {A B} (o : outcome A) (k : A -> outcome B) b :
  outcome_bind o k = Ok b -> exists a, o = Ok a /\ k a = Ok b.
Proof. destruct o; simpl; [eauto | discriminate]. Qed.

(** ** Generic lemmas on strings *)

Lemma str_app_assoc (a b c : string) : ((a ++ b) ++ c)%string = (a ++ (b ++ c))%string.
Proof. induction a as [|x a IH]; simpl; [done |]. by rewrite IH. Qed.

Lemma str_app_nil_r (a : string) : (a ++ "")%string = a.
Proof. induction a as [|x a IH]; simpl; [done |]. by rewrite IH. Qed.

Lemma str_length_app (a b : string) :
  String.length (a ++ b) = (String.length a + String.length b)%nat.
Proof. induction a as [|x a IH]; simpl; [done |]. by rewrite IH. Qed.

#[export] Hint Rewrite str_app_assoc str_app_nil_r str_length_app : py_rw.

(** stdpp declares [String.append] [simpl never]: its two equations are
    rewritten explicitly by [str_simpl]. *)
Lemma str_app_nil_l (a : string) : ("" ++ a)%string = a.
Proof. reflexivity. Qed.

Lemma str_app_cons (x : Ascii.ascii) (a b : string) :
  (String x a ++ b)%string = String x (a ++ b)%string.
Proof. reflexivity. Qed.

Ltac str_simpl := rewrite ?str_app_nil_l, ?str_app_cons in *.
