(* ===== verification/PyBuiltins.v ===== *)
(** * Python built-ins used by src/main.py

    Executable models of the operations of the Python runtime that the
    program applies to strings, integers and floats, with the lemmas that
    characterise them.  Strings are [String.string]: the program only
    searches for the ASCII characters ['-'] and ['/'] and the ASCII suffix
    [".mp3"], and in the UTF-8 encoding of a name an ASCII byte never
    occurs inside a multi-byte character, so byte-level and code-point
    level answers agree.  Python [float] is the primitive binary64 type. *)

From Stdlib Require Import ZArith List String Ascii Lia.
From Stdlib Require Import PrimFloat FloatOps SpecFloat Uint63.
From Stdlib Require Import DecimalString DecimalZ DecimalPos.
From stdpp Require Import base tactics.
From S2P Require Import Prelude.
Import ListNotations.
Local Open Scope string_scope.
Local Open Scope Z_scope.

(** ** Strings *)

(** [c in s] for a one-character string [c]. *)
Fixpoint py_contains_char (c : ascii) (s : string) : bool :=
  match s with
  | EmptyString => false
  | String a s' => Ascii.eqb a c || py_contains_char c s'
  end.

(** The two halves around the first occurrence of [c], if any. *)
Fixpoint split_at_first (c : ascii) (s : string) : option (string * string) :=
  match s with
  | EmptyString => None
  | String a s' =>
      if Ascii.eqb a c then Some (EmptyString, s')
      else match split_at_first c s' with
           | Some (x, y) => Some (String a x, y)
           | None => None
           end
  end.

(** [s.split(c, 1)]: at most one split, at the first occurrence. *)
Definition py_split_once (c : ascii) (s : string) : list string :=
  match split_at_first c s with
  | Some (x, y) => [x; y]
  | None => [s]
  end.

(** [s.endswith(suf)]: some suffix of [s] equals [suf]. *)
Fixpoint py_endswith (s suf : string) : bool :=
  String.eqb s suf ||
  match s with
  | EmptyString => false
  | String _ s' => py_endswith s' suf
  end.

(** [s.startswith(c)] for a one-character [c]. *)
Definition py_startswith_char (s : string) (c : ascii) : bool :=
  match s with
  | String a _ => Ascii.eqb a c
  | EmptyString => false
  end.

(** [posixpath.join(a, b)] for two components. *)
Definition os_path_join (a b : string) : string :=
  if py_startswith_char b "/" then b
  else if String.eqb a "" || py_endswith a "/" then a ++ b
  else a ++ "/" ++ b.

(** [posixpath.basename(p)] = [p[p.rfind('/') + 1:]]. *)
Fixpoint os_path_basename (p : string) : string :=
  match p with
  | EmptyString => EmptyString
  | String a p' =>
      if py_contains_char "/" p' then os_path_basename p'
      else if Ascii.eqb a "/" then p'
      else p
  end.

(** ** Integers and their decimal strings *)

(** [str(n)] for a Python [int]. *)
Definition py_str_int (n : Z) : string := NilZero.string_of_int (Z.to_int n).

(** [int(s)] on the strings [str] produces (a leading zero is accepted). *)
Definition py_int_of_str (s : string) : option Z :=
  option_map Z.of_int (NilZero.int_of_string s).

Fixpoint str_repeat (c : ascii) (k : nat) : string :=
  match k with
  | O => EmptyString
  | S k' => String c (str_repeat c k')
  end.

(** [format(n, '0<w>d')]: zero padding to width [w], after the sign. *)
Definition py_format_0d (w : nat) (n : Z) : string :=
  let sign := if n <? 0 then "-" else "" in
  let digits := py_str_int (Z.abs n) in
  sign ++ str_repeat "0" (w - String.length sign - String.length digits) ++ digits.

(** ** Floats *)

(** [int(f)]: truncation toward zero; [nan] and infinities raise. *)
Definition py_int_of_float (f : float) : outcome Z :=
  match Prim2SF f with
  | S754_zero _ => Ok 0
  | S754_infinity _ => Raise OverflowError
  | S754_nan => Raise ValueError
  | S754_finite s m e =>
      let a := Z.shiftr (Zpos m) (- e) in
      Ok (if s then - a else a)
  end.

(** [float(n)] for [|n| < 2^53], where the conversion is exact. *)
Definition py_float_of_int (n : Z) : float :=
  if 0 <=? n then of_uint63 (Uint63.of_Z n)
  else (- of_uint63 (Uint63.of_Z (- n)))%float.

(** [a / b] on two Python ints (true division), for operands below
    [2^53] in magnitude, where it is the quotient of the exact floats. *)
Definition py_true_div (a b : Z) : outcome float :=
  if b =? 0 then Raise ZeroDivisionError
  else Ok (py_float_of_int a / py_float_of_int b)%float.

(** ** Specifications of the string operations *)

Lemma py_contains_char_app c a b :
  py_contains_char c (a ++ b) = py_contains_char c a || py_contains_char c b.
Proof. induction a as [|x a IH]; simpl; [done |]. by rewrite IH, orb_assoc. Qed.

Lemma py_contains_char_here c a b : py_contains_char c (a ++ String c b) = true.
Proof. rewrite py_contains_char_app. simpl. rewrite Ascii.eqb_refl. by destruct (py_contains_char c a). Qed.

#[export] Hint Rewrite py_contains_char_app : py_rw.

(** The first occurrence: [x] is the prefix before it, free of [c]. *)
Lemma split_at_first_Some c s x y :
  split_at_first c s = Some (x, y) ->
  s = x ++ String c y /\ py_contains_char c x = false.
Proof.
  revert x y. induction s as [|a s IH]; intros x y H; simpl in H; [done |].
  destruct (Ascii.eqb_spec a c) as [->|Hne].
  - injection H as <- <-. done.
  - destruct (split_at_first c s) as [[x' y']|] eqn:E; [| done].
    injection H as <- <-. destruct (IH _ _ eq_refl) as [-> Hx].
    split; [done |]. simpl. rewrite Hx. by apply Ascii.eqb_neq in Hne as ->.
Qed.

Lemma split_at_first_None c s :
  split_at_first c s = None <-> py_contains_char c s = false.
Proof.
  induction s as [|a s IH]; simpl; [done |].
  destruct (Ascii.eqb_spec a c); simpl; [done |].
  destruct (split_at_first c s) as [[x y]|]; [| by apply IH].
  split; [done |]. intros H. by apply IH in H.
Qed.

Lemma py_split_once_absent c s :
  py_contains_char c s = false -> py_split_once c s = [s].
Proof. intros H. unfold py_split_once. by apply split_at_first_None in H as ->. Qed.

Lemma py_split_once_present c s :
  py_contains_char c s = true ->
  exists x y, py_split_once c s = [x; y] /\ s = x ++ String c y /\
              py_contains_char c x = false.
Proof.
  intros H. unfold py_split_once.
  destruct (split_at_first c s) as [[x y]|] eqn:E.
  - apply split_at_first_Some in E as [-> Hx]. eauto.
  - apply split_at_first_None in E. congruence.
Qed.

(** Splitting at the first [c] of [x ++ c ++ y] with [c] not in [x]. *)
Lemma split_at_first_app c x y :
  py_contains_char c x = false -> split_at_first c (x ++ String c y) = Some (x, y).
Proof.
  induction x as [|a x IH]; simpl; intros H.
  - by rewrite Ascii.eqb_refl.
  - apply orb_false_iff in H as [Ha Hx]. rewrite Ha, IH; done.
Qed.

Lemma py_endswith_spec s suf :
  py_endswith s suf = true <-> exists p, s = p ++ suf.
Proof.
  induction s as [|a s IH]; cbn [py_endswith].
  - rewrite orb_false_r. split.
    + destruct suf; [by exists "" | done].
    + intros [[|] Hp]; [| done]. simpl in Hp. by subst.
  - rewrite orb_true_iff, String.eqb_eq, IH. split.
    + intros [<-|[p ->]]; [by exists "" | by exists (String a p)].
    + intros [[|b p] Hp]; [by left |]. injection Hp as -> ->. right. eauto.
Qed.

Lemma py_endswith_app p suf : py_endswith (p ++ suf) suf = true.
Proof. apply py_endswith_spec. eauto. Qed.

Lemma os_path_basename_plain b :
  py_contains_char "/" b = false -> os_path_basename b = b.
Proof.
  destruct b as [|a b]; simpl; [done |].
  intros [Ha ->]%orb_false_iff. by rewrite Ha.
Qed.

Lemma os_path_basename_after_slash a b :
  py_contains_char "/" b = false -> os_path_basename (a ++ String "/" b) = b.
Proof.
  intros Hb. induction a as [|x a IH]; simpl.
  - by rewrite Hb.
  - by rewrite py_contains_char_here.
Qed.

(** [basename(join(folder, name)) = name] for a plain file name. *)
Lemma os_path_basename_join a b :
  py_contains_char "/" b = false ->
  os_path_basename (os_path_join a b) = b.
Proof.
  intros Hb. unfold os_path_join.
  assert (py_startswith_char b "/" = false) as ->.
  { destruct b as [|c b']; [done |]. simpl in *. by apply orb_false_iff in Hb as [-> _]. }
  destruct (String.eqb_spec a "") as [->|Ha]; simpl; [by apply os_path_basename_plain |].
  destruct (py_endswith a "/") eqn:E.
  - apply py_endswith_spec in E as [p ->].
    rewrite str_app_assoc. by apply os_path_basename_after_slash.
  - by apply os_path_basename_after_slash.
Qed.

(** ** Specifications of the integer conversions *)

(** [int(str(n)) = n]. *)
Lemma py_int_of_str_str n : py_int_of_str (py_str_int n) = Some n.
Proof.
  unfold py_int_of_str, py_str_int. rewrite NilZero.isi.
  - simpl. by rewrite DecimalZ.of_to.
  - destruct n; simpl; [done | | done].
    intros [=E]. by apply (Unsigned.to_uint_nonnil p).
  - destruct n; simpl; [done | done |].
    intros [=E]. by apply (Unsigned.to_uint_nonnil p).
Qed.

Lemma string_of_uint_no_colon d :
  py_contains_char ":" (NilEmpty.string_of_uint d) = false.
Proof. induction d; simpl; auto. Qed.

(** [str(n)] never contains [':']. *)
Lemma py_str_int_no_colon n : py_contains_char ":" (py_str_int n) = false.
Proof.
  unfold py_str_int, NilZero.string_of_int, NilZero.string_of_uint.
  destruct (Z.to_int n) as [d|d]; destruct d; simpl; auto using string_of_uint_no_colon.
Qed.

(** Exhaustive check of [int(format(k, '02d')) = k] on [0 <= k < 60]. *)
Lemma py_format_02d_parse_check :
  forallb (fun k => match py_int_of_str (py_format_0d 2 k) with
                    | Some k' => k' =? k
                    | None => false
                    end) (map Z.of_nat (seq 0 60)) = true.
Proof. vm_compute. reflexivity. Qed.

Lemma py_format_02d_parse k :
  0 <= k < 60 -> py_int_of_str (py_format_0d 2 k) = Some k.
Proof.
  intros Hk. pose proof py_format_02d_parse_check as H.
  rewrite forallb_forall in H.
  assert (Hin : In k (map Z.of_nat (seq 0 60))).
  { apply in_map_iff. exists (Z.to_nat k). split; [lia | apply in_seq; lia]. }
  specialize (H k Hin).
  destruct (py_int_of_str (py_format_0d 2 k)) as [k'|]; [| done].
  by apply Z.eqb_eq in H as ->.
Qed.

Lemma str_repeat_zero_no_colon n : py_contains_char ":" (str_repeat "0" n) = false.
Proof. induction n as [|n IH]; simpl; auto. Qed.

Lemma py_format_02d_no_colon k :
  0 <= k -> py_contains_char ":" (py_format_0d 2 k) = false.
Proof.
  intros Hk. unfold py_format_0d. destruct (Z.ltb_spec k 0); [lia |].
  cbn [append]. by rewrite py_contains_char_app, py_str_int_no_colon, str_repeat_zero_no_colon.
Qed.

(** ** Specifications of the float operations *)

Definition slider_values : list Z := map Z.of_nat (seq 0 101).

Lemma slider_values_in v : 0 <= v <= 100 -> In v slider_values.
Proof. intros Hv. apply in_map_iff. exists (Z.to_nat v). split; [lia | apply in_seq; lia]. Qed.

(** Exhaustive check over the slider's range [0, 100]: [v / 100] is a
    float in [[0.0, 1.0]], and the map [v |-> v / 100] is monotone. *)
Lemma py_true_div_100_check :
  forallb (fun v => match py_true_div v 100 with
                    | Ok f => (0 <=? f)%float && (f <=? 1)%float
                    | Raise _ => false
                    end) slider_values = true.
Proof. vm_compute. reflexivity. Qed.

Lemma py_true_div_100_mono_check :
  forallb (fun v => match py_true_div v 100, py_true_div (v + 1) 100 with
                    | Ok f, Ok g => (f <? g)%float
                    | _, _ => false
                    end) (map Z.of_nat (seq 0 100)) = true.
Proof. vm_compute. reflexivity. Qed.

Lemma py_true_div_100_range v :
  0 <= v <= 100 ->
  exists f, py_true_div v 100 = Ok f /\ (0 <=? f)%float = true /\ (f <=? 1)%float = true.
Proof.
  intros Hv. pose proof py_true_div_100_check as H. rewrite forallb_forall in H.
  specialize (H v (slider_values_in v Hv)).
  destruct (py_true_div v 100) as [f|]; [| done].
  apply andb_true_iff in H as [H1 H2]. eauto.
Qed.

Lemma py_true_div_100_step v :
  0 <= v < 100 ->
  exists f g, py_true_div v 100 = Ok f /\ py_true_div (v + 1) 100 = Ok g /\ (f <? g)%float = true.
Proof.
  intros Hv. pose proof py_true_div_100_mono_check as H. rewrite forallb_forall in H.
  assert (Hin : In v (map Z.of_nat (seq 0 100))).
  { apply in_map_iff. exists (Z.to_nat v). split; [lia | apply in_seq; lia]. }
  specialize (H v Hin).
  destruct (py_true_div v 100) as [f|], (py_true_div (v + 1) 100) as [g|]; try done. eauto.
Qed.
