(* ===== verification/Metadata.v ===== *)
(** * Metadata: the read-only environment and [get_song_info]

    The file system and eyed3 are collaborators the program only reads:
    they are a record of functions [FileSystem], fixed for a run.
    [get_song_info] (src/main.py, lines 74-93) is translated statement by
    statement: its [try] block, the [except] branch that rebinds three of
    the four locals, the size computation outside the [try], and the
    final [return] that reads the local [duration]. *)

From Stdlib Require Import ZArith List String Ascii PrimFloat Lia.
From stdpp Require Import base tactics.
From S2P Require Import Prelude PyBuiltins.
Import ListNotations.
Local Open Scope string_scope.
Local Open Scope Z_scope.

(** ** eyed3's objects and the file system *)

(** [audiofile.tag]: [artist] and [title] may be [None]. *)
Record Tag := mkTag { tag_artist : option string; tag_title : option string }.

(** [audiofile.info]: the decoded stream length, a Python float. *)
Record AudioInfo := mkAudioInfo { time_secs : float }.

(** [eyed3.load(path)]: [tag] and [info] may be [None]. *)
Record AudioFile := mkAudioFile { af_tag : option Tag; af_info : option AudioInfo }.

(** What the program reads from its environment.  [fs_eyed3 p] is the
    outcome of [eyed3.load(p)]: it raises, returns [None] (not an audio
    file) or returns an [AudioFile]. *)
Record FileSystem := mkFileSystem {
  fs_listdir : string -> outcome (list string);   (** [os.listdir] *)
  fs_getsize : string -> outcome Z;               (** [os.path.getsize] *)
  fs_eyed3 : string -> outcome (option AudioFile) (** [eyed3.load] *)
}.

(** Python truthiness of an optional string attribute. *)
Definition py_truthy_str (o : option string) : bool :=
  match o with
  | Some s => negb (String.eqb s "")
  | None => false
  end.

(** ** [get_song_info] *)

(** [f"{minutes}:{seconds:02d}"] with [minutes = duration // 60] and
    [seconds = duration % 60] (lines 80-82; Python's [//] and [%] are
    floor division and its remainder, [Z.div] and [Z.modulo]). *)
Definition duration_label (duration : Z) : string :=
  let minutes := duration / 60 in
  let seconds := duration mod 60 in
  py_str_int minutes ++ ":" ++ py_format_0d 2 seconds.

(** [f"{file_size_mb} MB"] (lines 89-91). *)
Definition size_label (file_size : Z) : string :=
  let file_size_kb := file_size / 1024 in
  let file_size_mb := file_size_kb / 1024 in
  py_str_int file_size_mb ++ " MB".

(** The [try] block (lines 76-82): on success, the locals
    [artist], [title], [duration] and [duration_str]. *)
Definition song_info_try (fs : FileSystem) (file_path : string)
  : outcome (string * string * Z * string) :=
  outcome_bind (fs_eyed3 fs file_path) (fun audiofile =>
  match audiofile with
  | None => Raise AttributeError
  | Some af =>
      match af_tag af with
      | None => Raise AttributeError
      | Some tag =>
          let artist :=
            match tag_artist tag with
            | Some a => if py_truthy_str (Some a) then a else "Unknown Artist"
            | None => "Unknown Artist"
            end in
          let title :=
            match tag_title tag with
            | Some t => if py_truthy_str (Some t) then t else os_path_basename file_path
            | None => os_path_basename file_path
            end in
          match af_info af with
          | None => Raise AttributeError
          | Some info =>
              outcome_bind (py_int_of_float (time_secs info)) (fun duration =>
              Ok (artist, title, duration, duration_label duration))
          end
      end
  end).

(** The whole method.  The local [duration] is bound only when the
    [try] block completes (nothing after its assignment can raise), and
    the [except] branch does not bind it: [return ..., duration] then
    raises [UnboundLocalError]. *)
Definition get_song_info (fs : FileSystem) (file_path : string)
  : outcome (string * string * string * string * Z) :=
  let '(artist, title, duration_str, duration) :=
    match song_info_try fs file_path with
    | Ok (a, t, d, ds) => (a, t, ds, Some d)
    | Raise _ => ("Unknown Artist", os_path_basename file_path, "N/A", None)
    end in
  outcome_bind (fs_getsize fs file_path) (fun file_size =>
  let file_size_str := size_label file_size in
  match duration with
  | Some d => Ok (artist, title, duration_str, file_size_str, d)
  | None => Raise UnboundLocalError
  end).

(** ** A reader for the duration label *)

(** [m, s = label.split(':', 1); int(m) * 60 + int(s)]: the inverse
    used to state what the label shows. *)
Definition parse_duration_label (s : string) : option Z :=
  match split_at_first ":" s with
  | Some (m, sec) =>
      match py_int_of_str m, py_int_of_str sec with
      | Some m', Some s' => Some (m' * 60 + s')
      | _, _ => None
      end
  | None => None
  end.

(** ** Properties of [get_song_info] *)

Section GetSongInfo.
Context (fs : FileSystem) (file_path : string).

(** C23: Success exactly when the tag read and the size read succeed. *)
Lemma get_song_info_Ok artist title duration_str file_size_str duration :
  get_song_info fs file_path = Ok (artist, title, duration_str, file_size_str, duration) <->
  exists file_size,
    song_info_try fs file_path = Ok (artist, title, duration, duration_str) /\
    fs_getsize fs file_path = Ok file_size /\ file_size_str = size_label file_size.
Proof.
  unfold get_song_info.
  destruct (song_info_try fs file_path) as [[[[a t] d] ds]|e];
    destruct (fs_getsize fs file_path) as [sz|e']; simpl.
  - split; [intros [= <- <- <- <- <-]; eauto |].
    by intros (? & [= <- <- <- <-] & [= <-] & ->).
  - split; [done | by intros (? & _ & [=] & _)].
  - split; [done | by intros (? & [=] & _)].
  - split; [done | by intros (? & [=] & _)].
Qed.

(** The [try] block's [duration_str] is the label of its [duration]. *)
Lemma song_info_try_label artist title duration duration_str :
  song_info_try fs file_path = Ok (artist, title, duration, duration_str) ->
  duration_str = duration_label duration.
Proof.
  unfold song_info_try.
  destruct (fs_eyed3 fs file_path) as [[[[tag|] [info|]]|]|e]; simpl; try done.
  destruct (py_int_of_float (time_secs info)); simpl; [| done]. by intros [= _ _ <- <-].
Qed.

(** What a successful call returns in its label columns. *)
Lemma get_song_info_labels artist title duration_str file_size_str duration :
  get_song_info fs file_path = Ok (artist, title, duration_str, file_size_str, duration) ->
  duration_str = duration_label duration /\ exists file_size, file_size_str = size_label file_size.
Proof.
  unfold get_song_info.
  destruct (song_info_try fs file_path) as [[[[a t] d] ds]|e] eqn:Ht;
    destruct (fs_getsize fs file_path) as [sz|e']; simpl; try done.
  intros [= <- <- <- <- <-]. split; [by eapply song_info_try_label | eauto].
Qed.

(** [get_song_info] raises whenever the [try] block fails: the
    [except] branch leaves [duration] unbound. *)
Lemma get_song_info_unbound e file_size :
  song_info_try fs file_path = Raise e ->
  fs_getsize fs file_path = Ok file_size ->
  get_song_info fs file_path = Raise UnboundLocalError.
Proof. intros Ht Hs. unfold get_song_info. by rewrite Ht, Hs. Qed.
End GetSongInfo.

(** ** The labels *)

(** The seconds field is always two digits in [00..59], whatever the sign
    of the duration: Python's [%] by a positive divisor is non-negative. *)
Lemma duration_label_seconds duration :
  0 <= duration mod 60 < 60.
Proof. apply Z.mod_pos_bound. lia. Qed.

Lemma parse_duration_label_of duration :
  parse_duration_label (duration_label duration) = Some duration.
Proof.
  unfold parse_duration_label, duration_label. cbn [append].
  rewrite split_at_first_app by apply py_str_int_no_colon.
  rewrite py_int_of_str_str, py_format_02d_parse by apply duration_label_seconds.
  f_equal. pose proof (Z.div_mod duration 60). lia.
Qed.

(** C12: Round trip: the label reads back as the duration in seconds. *)
Lemma duration_label_roundtrip duration :
  parse_duration_label (duration_label duration) = Some duration.
Proof. apply parse_duration_label_of. Qed.

(** C22: [file_size // 1024 // 1024] is the number of whole MiB: the label
    rounds down, so files under 1 MiB show ["0 MB"]. *)
Lemma size_label_mib file_size :
  size_label file_size = py_str_int (file_size / 1048576) ++ " MB" /\
  0 <= file_size - file_size / 1048576 * 1048576 < 1048576.
Proof.
  unfold size_label. rewrite Z.div_div by lia. split; [done |].
  pose proof (Z.mod_pos_bound file_size 1048576). pose proof (Z.div_mod file_size 1048576). lia.
Qed.
