(* ===== verification/Mixer.v ===== *)
(** * Mixer: the audio collaborator

    The program drives [pygame.mixer.music] through six calls ([load],
    [play], [pause], [unpause], [set_volume], [get_pos]).  The session is
    proved against the interface [AudioMixer] and its laws
    [AudioMixerLaws], which state only what the program relies on.  The
    module [Pygame] models pygame's music channel (after pygame 2's
    [music.c]: a failed [load] raises and keeps the current music,
    [get_pos] is [-1] until [play] and again once the track has ended)
    and discharges the laws.  [music_volume] observes the value last
    handed to [set_volume]: pygame stores it as an integer out of 128
    (SDL_mixer's [Mix_VolumeMusic]), so the audible volume is that value
    rounded down to a multiple of 1/128; the program never reads the
    volume back, so nothing here depends on the rounding.  pygame is a
    library: only [pg_init] (line 9) maps to lines of src/. *)

From Stdlib Require Import ZArith String PrimFloat Lia.
From stdpp Require Import base tactics.
From S2P Require Import Prelude.
Local Open Scope Z_scope.

(** ** The interface *)

(** [music_load p m = None] is [pygame.error] (the channel is unchanged);
    [music_play m = None] is [pygame.error] ("music not loaded");
    [music_elapse dt] is [dt] milliseconds of wall-clock time. *)
Class AudioMixer (M : Type) := {
  music_load : string -> M -> option M;
  music_play : M -> option M;
  music_pause : M -> M;
  music_unpause : M -> M;
  music_set_volume : float -> M -> M;
  music_get_pos : M -> Z;
  music_elapse : Z -> M -> M;
  (** observations *)
  music_loaded : M -> option string;
  music_busy : M -> bool;
  music_volume : M -> float
}.

Class AudioMixerLaws (M : Type) `{!AudioMixer M} := {
  load_loaded p m m' :
    music_load p m = Some m' -> music_loaded m' = Some p /\ music_busy m' = false;
  play_loaded m :
    music_loaded m <> None ->
    exists m', music_play m = Some m' /\ music_loaded m' = music_loaded m /\
               music_busy m' = true;
  play_unloaded m : music_loaded m = None -> music_play m = None;
  pause_loaded m : music_loaded (music_pause m) = music_loaded m;
  pause_busy m : music_busy (music_pause m) = false;
  unpause_loaded m : music_loaded (music_unpause m) = music_loaded m;
  unpause_unloaded m : music_loaded m = None -> music_busy (music_unpause m) = false;
  set_volume_volume v m : music_volume (music_set_volume v m) = v;
  set_volume_loaded v m : music_loaded (music_set_volume v m) = music_loaded m;
  set_volume_busy v m : music_busy (music_set_volume v m) = music_busy m;
  get_pos_range m : -1 <= music_get_pos m;
  get_pos_busy m : music_busy m = true -> 0 <= music_get_pos m;
  get_pos_unloaded m : music_loaded m = None -> music_get_pos m = -1;
  busy_loaded m : music_busy m = true -> music_loaded m <> None;
  elapse_loaded dt m : music_loaded (music_elapse dt m) = music_loaded m;
  (** the volume is a setting of the channel, kept across the other calls *)
  load_volume p m m' : music_load p m = Some m' -> music_volume m' = music_volume m;
  play_volume m m' : music_play m = Some m' -> music_volume m' = music_volume m;
  pause_volume m : music_volume (music_pause m) = music_volume m;
  unpause_volume m : music_volume (music_unpause m) = music_volume m;
  elapse_volume dt m : music_volume (music_elapse dt m) = music_volume m
}.

(** ** A model of pygame.mixer.music *)

Module Pygame.

(** [pg_pos]: milliseconds since [play], or [None] when [get_pos]
    returns [-1] (never started, or the track has ended). *)
Record PgMusic := mkPg {
  pg_loaded : option string;
  pg_len : Z;
  pg_pos : option Z;
  pg_paused : bool;
  pg_volume : float
}.

Section WithLibrary.
(** The decoder: the length in milliseconds of a loadable file, or
    [None] when SDL_mixer cannot open it. *)
Variable decode : string -> option Z.

Definition pg_load (p : string) (m : PgMusic) : option PgMusic :=
  match decode p with
  | Some len => Some (mkPg (Some p) len None false (pg_volume m))
  | None => None
  end.

Definition pg_play (m : PgMusic) : option PgMusic :=
  match pg_loaded m with
  | Some _ => Some (mkPg (pg_loaded m) (pg_len m) (Some 0) false (pg_volume m))
  | None => None
  end.

Definition pg_pause (m : PgMusic) : PgMusic :=
  mkPg (pg_loaded m) (pg_len m) (pg_pos m) true (pg_volume m).

Definition pg_unpause (m : PgMusic) : PgMusic :=
  mkPg (pg_loaded m) (pg_len m) (pg_pos m) false (pg_volume m).

Definition pg_set_volume (v : float) (m : PgMusic) : PgMusic :=
  mkPg (pg_loaded m) (pg_len m) (pg_pos m) (pg_paused m) v.

Definition pg_get_pos (m : PgMusic) : Z :=
  match pg_loaded m, pg_pos m with
  | Some _, Some t => Z.max 0 t
  | _, _ => -1
  end.

Definition pg_busy (m : PgMusic) : bool :=
  match pg_loaded m, pg_pos m with
  | Some _, Some _ => negb (pg_paused m)
  | _, _ => false
  end.

(** Time passes; at the end of the track the end-of-music callback
    resets the position to [-1]. *)
Definition pg_elapse (dt : Z) (m : PgMusic) : PgMusic :=
  if pg_busy m then
    match pg_pos m with
    | Some t =>
        let pos := if t + dt <? pg_len m then Some (t + dt) else None in
        mkPg (pg_loaded m) (pg_len m) pos false (pg_volume m)
    | None => m
    end
  else m.

#[export] Instance pygame_mixer : AudioMixer PgMusic := {
  music_load := pg_load;
  music_play := pg_play;
  music_pause := pg_pause;
  music_unpause := pg_unpause;
  music_set_volume := pg_set_volume;
  music_get_pos := pg_get_pos;
  music_elapse := pg_elapse;
  music_loaded := pg_loaded;
  music_busy := pg_busy;
  music_volume := pg_volume
}.

#[export] Instance pygame_mixer_laws : AudioMixerLaws PgMusic.
Proof.
  split; cbn.
  - intros p m m'. unfold pg_load. destruct (decode p); intros [=<-]; done.
  - intros [[l|] len pos pa v] Hl; [| done]. unfold pg_play. simpl. eauto.
  - intros [[l|] len pos pa v] Hl; done.
  - done.
  - intros [[l|] len [t|] pa v]; done.
  - done.
  - intros [[l|] len [t|] pa v]; done.
  - done.
  - done.
  - done.
  - intros [[l|] len [t|] pa v]; unfold pg_get_pos; simpl; lia.
  - intros [[l|] len [t|] pa v]; unfold pg_get_pos; simpl; try done; lia.
  - intros [[l|] len [t|] pa v]; done.
  - intros [[l|] len [t|] pa v]; done.
  - intros dt [[l|] len [t|] [|] v]; unfold pg_elapse; simpl; done.
  - intros p m m'. unfold pg_load. destruct (decode p); intros [=<-]; done.
  - intros [[l|] len pos pa v] m'; unfold pg_play; simpl; [intros [=<-] | done]; done.
  - done.
  - done.
  - intros dt [[l|] len [t|] [|] v]; unfold pg_elapse; simpl; done.
Qed.
End WithLibrary.

(** [pygame.mixer.init()] (line 9): nothing loaded, volume 1.0. *)
Definition pg_init : PgMusic := mkPg None 0 None false 1%float.
End Pygame.
