(* ===== verification/Widgets.v ===== *)
(** * Widgets: the state of an [Mp3Player] object

    [Player] holds the attributes [__init__] (src/main.py, lines 18-22)
    creates and the handlers read or write: the five plain attributes,
    the rows and the selection of [song_treeview], the progress bar and
    the mixer (the process-wide pygame channel, a field here), the
    volume slider the window owns and the lines printed on stdout.  The Qt
    widgets are library objects: the operations below model the calls
    the program makes on them, after Qt 6's documented behaviour
    (a [QTreeWidget] is in single-selection mode; [QProgressBar.setValue]
    ignores a value outside a range other than [0..0]; [QSlider.setValue]
    bounds its argument and emits [valueChanged] only on a change). *)

From Stdlib Require Import ZArith List String PrimFloat Lia.
From stdpp Require Import base tactics list strings.
From S2P Require Import Prelude PyBuiltins Mixer.
Import ListNotations.
Local Open Scope Z_scope.

(** A row of the tree: [item.text(0..3)] and
    [item.data(0, Qt.ItemDataRole.UserRole)] (lines 106-111). *)
Record TreeItem := mkItem {
  col_artist : string;
  col_title : string;
  col_duration : string;
  col_size : string;
  item_path : string
}.

#[export] Instance TreeItem_eq_dec : EqDecision TreeItem.
Proof. solve_decision. Defined.

(** ** The progress bar *)

Record ProgressBar := mkBar { pb_min : Z; pb_max : Z; pb_value : Z }.

(** [setRange(lo, hi)]: nothing when the range is unchanged; otherwise
    the maximum becomes [max(lo, hi)] and a value outside the new range
    resets the bar to [lo - 1]. *)
Definition bar_set_range (lo hi : Z) (b : ProgressBar) : ProgressBar :=
  if (lo =? pb_min b) && (hi =? pb_max b) then b
  else
    let hi' := Z.max lo hi in
    if (pb_value b <? lo - 1) || (hi' <? pb_value b) then mkBar lo hi' (lo - 1)
    else mkBar lo hi' (pb_value b).

(** [setValue(v)]: ignored outside [[min, max]] unless the range is [0..0]. *)
Definition bar_set_value (v : Z) (b : ProgressBar) : ProgressBar :=
  if ((pb_max b <? v) || (v <? pb_min b)) && negb ((pb_max b =? 0) && (pb_min b =? 0))
  then b
  else mkBar (pb_min b) (pb_max b) v.

(** The range of the bar starts at [0] and the value is in the range or
    [-1] (reset); in Qt's busy mode (range [0..0]) [setValue] accepts
    any value. *)
Definition bar_ok (b : ProgressBar) : Prop :=
  pb_min b = 0 /\ 0 <= pb_max b /\ (pb_max b = 0 \/ -1 <= pb_value b <= pb_max b).

Lemma bar_set_range_ok d b : bar_ok b -> bar_ok (bar_set_range 0 d b).
Proof.
  intros (Hmin & Hmax & Hv). unfold bar_set_range, bar_ok.
  destruct (Z.eqb_spec 0 (pb_min b)), (Z.eqb_spec d (pb_max b)); simpl; [done | | |];
    destruct (Z.ltb_spec (pb_value b) (0 - 1)), (Z.ltb_spec (Z.max 0 d) (pb_value b)); simpl; lia.
Qed.

Lemma bar_set_value_ok v b : bar_ok b -> bar_ok (bar_set_value v b).
Proof.
  intros (Hmin & Hmax & Hv). unfold bar_set_value, bar_ok.
  destruct (Z.ltb_spec (pb_max b) v), (Z.ltb_spec v (pb_min b)),
    (Z.eqb_spec (pb_max b) 0), (Z.eqb_spec (pb_min b) 0); simpl; try done; lia.
Qed.

(** [setValue(v)] within the range shows [v]. *)
Lemma bar_set_value_in_range v b :
  pb_min b <= v <= pb_max b -> bar_set_value v b = mkBar (pb_min b) (pb_max b) v.
Proof.
  intros Hv. unfold bar_set_value.
  by destruct (Z.ltb_spec (pb_max b) v), (Z.ltb_spec v (pb_min b)); [lia .. |].
Qed.

(** ** The volume slider

    A [QSlider] (lines 44-47): [setRange(lo, hi)] stores [lo] and
    [max(lo, hi)] and re-bounds the value; [setValue(v)] bounds [v] to
    the range and emits [valueChanged] with the new value only when the
    value changes.  A fresh slider has the range [0..99] and value [0]. *)
Record Slider := mkSlider { sl_min : Z; sl_max : Z; sl_value : Z }.

Definition slider_bound (v : Z) (sl : Slider) : Z :=
  Z.max (sl_min sl) (Z.min (sl_max sl) v).

(** [setValue(v)]: the slider after the call, and the value
    [valueChanged] is emitted with, if any. *)
Definition slider_set_value (v : Z) (sl : Slider) : Slider * option Z :=
  let v' := slider_bound v sl in
  if v' =? sl_value sl then (sl, None)
  else (mkSlider (sl_min sl) (sl_max sl) v', Some v').

Definition slider_set_range (lo hi : Z) (sl : Slider) : Slider * option Z :=
  let sl' := mkSlider lo (Z.max lo hi) (sl_value sl) in
  if (lo =? sl_min sl) && (Z.max lo hi =? sl_max sl) then (sl, None)
  else slider_set_value (sl_value sl) sl'.

Definition new_slider : Slider := mkSlider 0 99 0.

(** ** The player object *)

Record Player (M : Type) := mkPlayer {
  is_playing : bool;
  current_song : string;
  song_duration : Z;
  folder_path : string;
  current_position : Z;
  song_treeview : list TreeItem;
  selected : option nat;           (** the selected row, single selection *)
  progress_bar : ProgressBar;
  mixer : M;
  volume_slider : Slider;          (** [volume_slider], owned by the window *)
  console : list exc               (** the lines printed on stdout, by exception *)
}.
Arguments mkPlayer {M}.
Arguments is_playing {M}.
Arguments current_song {M}.
Arguments song_duration {M}.
Arguments folder_path {M}.
Arguments current_position {M}.
Arguments song_treeview {M}.
Arguments selected {M}.
Arguments progress_bar {M}.
Arguments mixer {M}.
Arguments volume_slider {M}.
Arguments console {M}.

Section Setters.
Context {M : Type}.
Implicit Types (s : Player M).

Definition set_is_playing (b : bool) s : Player M :=
  mkPlayer b (current_song s) (song_duration s) (folder_path s) (current_position s)
    (song_treeview s) (selected s) (progress_bar s) (mixer s) (volume_slider s) (console s).
Definition set_current_song (t : string) s : Player M :=
  mkPlayer (is_playing s) t (song_duration s) (folder_path s) (current_position s)
    (song_treeview s) (selected s) (progress_bar s) (mixer s) (volume_slider s) (console s).
Definition set_song_duration (d : Z) s : Player M :=
  mkPlayer (is_playing s) (current_song s) d (folder_path s) (current_position s)
    (song_treeview s) (selected s) (progress_bar s) (mixer s) (volume_slider s) (console s).
Definition set_folder_path (p : string) s : Player M :=
  mkPlayer (is_playing s) (current_song s) (song_duration s) p (current_position s)
    (song_treeview s) (selected s) (progress_bar s) (mixer s) (volume_slider s) (console s).
Definition set_current_position (n : Z) s : Player M :=
  mkPlayer (is_playing s) (current_song s) (song_duration s) (folder_path s) n
    (song_treeview s) (selected s) (progress_bar s) (mixer s) (volume_slider s) (console s).
Definition set_tree (items : list TreeItem) (sel : option nat) s : Player M :=
  mkPlayer (is_playing s) (current_song s) (song_duration s) (folder_path s)
    (current_position s) items sel (progress_bar s) (mixer s) (volume_slider s) (console s).
Definition set_progress_bar (b : ProgressBar) s : Player M :=
  mkPlayer (is_playing s) (current_song s) (song_duration s) (folder_path s)
    (current_position s) (song_treeview s) (selected s) b (mixer s) (volume_slider s) (console s).
Definition set_volume_slider (sl : Slider) s : Player M :=
  mkPlayer (is_playing s) (current_song s) (song_duration s) (folder_path s)
    (current_position s) (song_treeview s) (selected s) (progress_bar s) (mixer s) sl (console s).
Definition set_console (out : list exc) s : Player M :=
  mkPlayer (is_playing s) (current_song s) (song_duration s) (folder_path s)
    (current_position s) (song_treeview s) (selected s) (progress_bar s) (mixer s)
    (volume_slider s) out.
Definition set_mixer (m : M) s : Player M :=
  mkPlayer (is_playing s) (current_song s) (song_duration s) (folder_path s)
    (current_position s) (song_treeview s) (selected s) (progress_bar s) m (volume_slider s) (console s).

(** ** The tree widget calls *)

(** [song_treeview.clear()]: no rows, no selection. *)
Definition tree_clear s : Player M := set_tree [] None s.

(** [QTreeWidgetItem(song_treeview)] and its [setText]/[setData]:
    a row appended at the end. *)
Definition tree_append (it : TreeItem) s : Player M :=
  set_tree (song_treeview s ++ [it]) (selected s) s.

(** [selectedItems()], with the row index [indexOfTopLevelItem] gives. *)
Definition selected_items s : list (nat * TreeItem) :=
  match selected s with
  | Some i => match song_treeview s !! i with
              | Some it => [(i, it)]
              | None => []
              end
  | None => []
  end.

(** [setCurrentItem(topLevelItem(i))]: in single-selection mode the row
    becomes the only selected one. *)
Definition tree_set_current (i : nat) s : Player M :=
  match song_treeview s !! i with
  | Some _ => set_tree (song_treeview s) (Some i) s
  | None => set_tree (song_treeview s) None s
  end.

(** [topLevelItemCount()]. *)
Definition top_level_item_count s : Z := Z.of_nat (length (song_treeview s)).
End Setters.

(** The slider of [__init__]: created (line 44), [setRange(0, 100)] and
    [setValue(100)] (lines 45-46), before [valueChanged] is connected at
    line 47, so what they emit reaches no slot and the mixer keeps its
    own initial volume. *)
Definition init_slider : Slider :=
  fst (slider_set_value 100 (fst (slider_set_range 0 100 new_slider))).

(** A fresh [QProgressBar] (line 49): range [0..100], value [-1]. *)
Definition new_bar : ProgressBar := mkBar 0 100 (-1).

(** The bar of [__init__]: [setRange(0, 100)] and [setValue(0)] (lines 50-51). *)
Definition init_bar : ProgressBar := bar_set_value 0 (bar_set_range 0 100 new_bar).

(** [__init__]: the five attributes (lines 18-22), the empty tree, the
    bar and the slider above, and the mixer [pygame.mixer.init()] left. *)
Definition init_player {M : Type} (m0 : M) : Player M :=
  mkPlayer false "" 0 "" 0 [] None init_bar m0 init_slider [].

(** ** Lemmas on the setters *)

Section SetterLemmas.
Context {M : Type}.
Implicit Types (s : Player M).

Lemma set_tree_id s : set_tree (song_treeview s) (selected s) s = s.
Proof. by destruct s. Qed.

Lemma set_tree_set_tree items sel items' sel' s :
  set_tree items sel (set_tree items' sel' s) = set_tree items sel s.
Proof. done. Qed.

Lemma tree_append_set_tree it items sel s :
  tree_append it (set_tree items sel s) = set_tree (items ++ [it]) sel s.
Proof. done. Qed.
End SetterLemmas.

#[export] Hint Rewrite @set_tree_id @set_tree_set_tree @tree_append_set_tree : py_rw.

(** [selectedItems()] has at most one row, the selected one. *)
Lemma selected_items_cons {M} (s : Player M) i it rest :
  selected_items s = (i, it) :: rest <->
  selected s = Some i /\ song_treeview s !! i = Some it /\ rest = [].
Proof.
  unfold selected_items. destruct (selected s) as [j|]; [| split; [done | by intros (? & _)]].
  destruct (song_treeview s !! j) as [it'|] eqn:E; split.
  - by intros [= -> -> ->].
  - intros ([= <-] & Hit & ->). rewrite E in Hit. by injection Hit as ->.
  - done.
  - intros ([= <-] & H & _). congruence.
Qed.

Lemma selected_items_set_current {M} (s : Player M) j it :
  song_treeview s !! j = Some it ->
  selected_items (tree_set_current j s) = [(j, it)].
Proof. intros Hj. unfold tree_set_current, selected_items. rewrite Hj. simpl. by rewrite Hj. Qed.

(** Compute the field projections of the setters. *)
Ltac player_simpl :=
  cbn [set_is_playing set_current_song set_song_duration set_folder_path
       set_current_position set_tree set_progress_bar set_mixer set_volume_slider set_console
       is_playing current_song song_duration folder_path current_position
       song_treeview selected progress_bar mixer volume_slider console negb andb orb fst snd] in *.
