(* ===== verification/Scanner.v ===== *)
(** * Scanner: [split_artist_title] and [open_folder]

    [open_folder] (src/main.py, lines 95-111) takes the folder the dialog
    returned, clears the tree and appends one row per [".mp3"] entry of
    [os.listdir], in listing order.  An exception in the loop (from
    [get_song_info]) leaves the rows appended so far and propagates out
    of the handler.  [scan_entries] is the reference fold over the
    listing that the monadic loop is proved equal to. *)

From Stdlib Require Import ZArith List String Ascii Lia.
From stdpp Require Import base tactics list strings.
From S2P Require Import Prelude PyBuiltins Metadata Widgets.
Import ListNotations.
Local Open Scope string_scope.

(** [split_artist_title] (lines 113-119).  The tuple unpacking of
    [file_name.split('-', 1)] raises [ValueError] unless the split has
    exactly two parts. *)
Definition split_artist_title (file_name : string) : outcome (string * string) :=
  if py_contains_char "-" file_name then
    match py_split_once "-" file_name with
    | [artist; title] => Ok (artist, title)
    | _ => Raise ValueError
    end
  else Ok ("Unknown Artist", file_name).

Section Scanner.
Context {M : Type} (fs : FileSystem).

(** One row from one directory entry (lines 103-111). *)
Definition scan_entry (folder file_name : string) : outcome TreeItem :=
  let file_path := os_path_join folder file_name in
  outcome_bind (split_artist_title file_name) (fun at_ =>
  outcome_bind (get_song_info fs file_path) (fun info =>
  let '(artist, title) := at_ in
  let '(_, _, duration, size, _) := info in
  Ok (mkItem artist title duration size file_path))).

(** The body of the [for] loop (lines 102-111). *)
Definition open_folder_entry (folder file_name : string) : PyM (Player M) unit :=
  if py_endswith file_name ".mp3" then
    (it <- py_lift (scan_entry folder file_name) ;;
     py_modify (tree_append it))%py
  else py_ret tt.

(** [open_folder] (lines 95-111); [chosen] is what
    [QFileDialog.getExistingDirectory] returned ([""] on cancel). *)
Definition open_folder (chosen : string) : PyM (Player M) unit :=
  if String.eqb chosen "" then py_ret tt
  else (py_modify (set_folder_path chosen) ;;
        py_modify tree_clear ;;
        names <- py_lift (fs_listdir fs chosen) ;;
        py_for names (open_folder_entry chosen))%py.

(** The reference fold: the rows of the listing's [".mp3"] entries, up
    to the first entry that raises, and that exception. *)
Fixpoint scan_entries (folder : string) (names : list string)
  : list TreeItem * option exc :=
  match names with
  | [] => ([], None)
  | n :: ns =>
      if py_endswith n ".mp3" then
        match scan_entry folder n with
        | Ok it => let '(its, e) := scan_entries folder ns in (it :: its, e)
        | Raise e => ([], Some e)
        end
      else scan_entries folder ns
  end.
End Scanner.

Definition outcome_of_exc (e : option exc) : outcome unit :=
  match e with
  | None => Ok tt
  | Some e => Raise e
  end.

(** ** [split_artist_title] *)

Lemma split_artist_title_run file_name artist title :
  split_artist_title file_name = Ok (artist, title) <->
  (py_contains_char "-" file_name = false /\ artist = "Unknown Artist" /\ title = file_name) \/
  (file_name = (artist ++ String "-" title)%string /\ py_contains_char "-" artist = false).
Proof.
  unfold split_artist_title. destruct (py_contains_char "-" file_name) eqn:E.
  - destruct (py_split_once_present _ _ E) as (x & y & -> & Hxy & Hx). split.
    + intros [= <- <-]. by right.
    + intros [(? & _) | [Hn Ha]]; [congruence |].
      pose proof (split_at_first_app "-" x y Hx) as H1.
      pose proof (split_at_first_app "-" artist title Ha) as H2.
      rewrite <- Hxy in H1. rewrite <- Hn in H2. congruence.
  - split.
    + intros [= <- <-]. by left.
    + intros [(_ & -> & ->) | [Hn _]]; [done |].
      rewrite Hn, py_contains_char_here in E. done.
Qed.

(** C11: [split_artist_title] splits at the first ['-']: the artist is the
    ['-']-free prefix before it and the title everything after it;
    without a ['-'] the artist is ["Unknown Artist"] and the title the
    whole file name. *)
Theorem split_artist_title_spec file_name artist title :
  split_artist_title file_name = Ok (artist, title) <->
  (py_contains_char "-" file_name = false /\ artist = "Unknown Artist" /\ title = file_name) \/
  (file_name = (artist ++ String "-" title)%string /\ py_contains_char "-" artist = false).
Proof. by eapply split_artist_title_run. Qed.

Lemma split_artist_title_ok file_name :
  exists artist title, split_artist_title file_name = Ok (artist, title).
Proof.
  unfold split_artist_title. destruct (py_contains_char "-" file_name) eqn:E; [| eauto].
  destruct (py_split_once_present _ _ E) as (x & y & -> & _). eauto.
Qed.

(** C27: Never raises: the [ValueError] branch of the unpacking is dead. *)
Lemma split_artist_title_total file_name :
  exists artist title, split_artist_title file_name = Ok (artist, title).
Proof. by eapply split_artist_title_ok. Qed.

Section ScanErrors.
Context (fs : FileSystem).

(** C5: an [".mp3"] file whose tags cannot be read aborts the scan with
    [UnboundLocalError] instead of getting a row with default values. *)
Theorem scan_entry_untagged folder n e file_size :
  song_info_try fs (os_path_join folder n) = Raise e ->
  fs_getsize fs (os_path_join folder n) = Ok file_size ->
  scan_entry fs folder n = Raise UnboundLocalError.
Proof.
  intros Ht Hs. unfold scan_entry.
  destruct (split_artist_title_ok n) as (a & t & ->). simpl.
  by rewrite (get_song_info_unbound _ _ _ _ Ht Hs).
Qed.
End ScanErrors.

(** A name that ends with [suf] still does after its first [c], when
    [suf] has no [c]. *)
Lemma suffix_after_char c x y p suf :
  py_contains_char c suf = false ->
  (x ++ String c y = p ++ suf)%string -> py_endswith y suf = true.
Proof.
  intros Hsuf. revert p. induction x as [|a x IH]; intros p Hp.
  - destruct p as [|b p]; str_simpl.
    + rewrite <- Hp in Hsuf. simpl in Hsuf. by rewrite Ascii.eqb_refl in Hsuf.
    + injection Hp as _ ->. apply py_endswith_app.
  - destruct p as [|b p]; str_simpl.
    + rewrite <- Hp in Hsuf. simpl in Hsuf. apply orb_false_iff in Hsuf as [_ Hsuf].
      by rewrite py_contains_char_here in Hsuf.
    + injection Hp as _ Hp. by apply (IH p).
Qed.

Section ScannerLemmas.
Context {M : Type} (fs : FileSystem).

(** The loop appends the reference rows and stops at their exception. *)
Lemma py_for_open_folder_entry folder names (s : Player M) :
  py_for names (open_folder_entry fs folder) s =
  (outcome_of_exc (scan_entries fs folder names).2,
   set_tree (song_treeview s ++ (scan_entries fs folder names).1) (selected s) s).
Proof.
  revert s. induction names as [|n names IH]; intros s; simpl.
  - by rewrite app_nil_r, set_tree_id.
  - unfold open_folder_entry. destruct (py_endswith n ".mp3"); [| apply IH].
    unfold py_bind, py_lift, py_modify.
    destruct (scan_entry fs folder n) as [it|e]; simpl.
    + rewrite IH. destruct (scan_entries fs folder names) as [its e]; simpl.
      by rewrite <- app_assoc.
    + by rewrite app_nil_r, set_tree_id.
Qed.
End ScannerLemmas.

(** ** Properties of the scanner *)

Section ScannerProperties.
Context {M : Type} (fs : FileSystem).

Lemma scan_entry_title folder n it :
  py_endswith n ".mp3" = true -> scan_entry fs folder n = Ok it ->
  py_endswith (col_title it) ".mp3" = true.
Proof.
  intros Hn Hit. unfold scan_entry in Hit.
  destruct (split_artist_title n) as [[a t]|] eqn:Hs; [| done]. simpl in Hit.
  destruct (get_song_info fs _) as [[[[[? ?] ?] ?] ?]|]; [| done]. injection Hit as <-. simpl.
  apply split_artist_title_run in Hs as [(_ & _ & ->) | [-> _]]; [done |].
  apply py_endswith_spec in Hn as [p Hp]. by apply (suffix_after_char "-" a t p ".mp3").
Qed.

Lemma scan_entry_path folder n it :
  scan_entry fs folder n = Ok it -> item_path it = os_path_join folder n.
Proof.
  unfold scan_entry. destruct (split_artist_title n) as [[a t]|]; [| done]. simpl.
  destruct (get_song_info fs _) as [[[[[? ?] ?] ?] ?]|]; [| done]. by intros [= <-].
Qed.

Lemma open_folder_run chosen names (s : Player M) :
  chosen <> "" -> fs_listdir fs chosen = Ok names ->
  open_folder fs chosen s =
    (outcome_of_exc (scan_entries fs chosen names).2,
     set_tree (scan_entries fs chosen names).1 None (set_folder_path chosen s)).
Proof.
  intros Hc Hl. unfold open_folder.
  destruct (String.eqb_spec chosen ""); [done |].
  py_run. rewrite Hl. py_run. by rewrite py_for_open_folder_entry.
Qed.

(** C4: opening a folder clears the tree, records the folder, and fills
    the tree with the rows of the reference scan; the handler raises
    the scan's exception if there is one, after appending the rows of
    the entries before it. *)
Theorem open_folder_spec chosen names (s : Player M) :
  chosen <> "" -> fs_listdir fs chosen = Ok names ->
  open_folder fs chosen s =
    (outcome_of_exc (scan_entries fs chosen names).2,
     set_tree (scan_entries fs chosen names).1 None (set_folder_path chosen s)).
Proof. by eapply open_folder_run. Qed.

(** [os.listdir] raising propagates out of the handler, after the
    folder was recorded and the tree cleared. *)
Lemma open_folder_listdir_error chosen e (s : Player M) :
  chosen <> "" -> fs_listdir fs chosen = Raise e ->
  open_folder fs chosen s = (Raise e, tree_clear (set_folder_path chosen s)).
Proof.
  intros Hc Hl. unfold open_folder.
  destruct (String.eqb_spec chosen ""); [done |]. py_run. by rewrite Hl.
Qed.

(** Cancelling the dialog changes nothing. *)
Lemma open_folder_cancel (s : Player M) : open_folder fs "" s = (Ok tt, s).
Proof. done. Qed.

Lemma scan_entries_skip folder names :
  Forall (fun n => py_endswith n ".mp3" = false) names ->
  scan_entries fs folder names = ([], None).
Proof. induction 1 as [|n names Hn _ IH]; simpl; [done |]. by rewrite Hn. Qed.

(** C13: opening a folder whose listing has no name ending in [".mp3"]
    succeeds with an empty playlist and no selection: the loop's suffix
    test (line 102) skips every entry, so no tag or size is read. *)
Theorem open_folder_no_mp3 chosen names (s : Player M) :
  chosen <> ""%string -> fs_listdir fs chosen = Ok names ->
  Forall (fun n => py_endswith n ".mp3" = false) names ->
  open_folder fs chosen s = (Ok tt, set_tree [] None (set_folder_path chosen s)).
Proof.
  intros Hc Hl Hn. rewrite (open_folder_run chosen names s Hc Hl). by rewrite scan_entries_skip.
Qed.

Lemma scan_entries_title_list folder names :
  Forall (fun it => py_endswith (col_title it) ".mp3" = true) (scan_entries fs folder names).1.
Proof.
  induction names as [|n names IH]; simpl; [done |].
  destruct (py_endswith n ".mp3") eqn:Hn; [| done].
  destruct (scan_entry fs folder n) as [it|e] eqn:Hit; [| done].
  destruct (scan_entries fs folder names) as [its e]. simpl in *.
  constructor; [by eapply scan_entry_title | done].
Qed.

(** C15: every row of a scan shows a title that ends with [".mp3"]: the
    title is the file name or the part after its first ['-'], and the
    suffix has no ['-']. *)
Theorem scan_entries_titles folder names :
  Forall (fun it => py_endswith (col_title it) ".mp3" = true) (scan_entries fs folder names).1.
Proof. by eapply scan_entries_title_list. Qed.

Lemma scan_entries_path_list folder names :
  (scan_entries fs folder names).2 = None ->
  map item_path (scan_entries fs folder names).1 =
  map (os_path_join folder) (List.filter (fun n => py_endswith n ".mp3") names).
Proof.
  induction names as [|n names IH]; simpl; [done |].
  destruct (py_endswith n ".mp3") eqn:Hn; [| exact IH]. simpl.
  destruct (scan_entry fs folder n) as [it|e] eqn:Hit; [| done].
  destruct (scan_entries fs folder names) as [its e]. simpl in *. intros ->.
  rewrite (scan_entry_path _ _ _ Hit), IH; done.
Qed.

(** C14: a scan without exception has one row per [".mp3"] entry, in
    listing order, whose path is [os.path.join(folder, name)]. *)
Theorem scan_entries_paths folder names :
  (scan_entries fs folder names).2 = None ->
  map item_path (scan_entries fs folder names).1 =
  map (os_path_join folder) (List.filter (fun n => py_endswith n ".mp3") names).
Proof. by eapply scan_entries_path_list. Qed.



(** C24: opening another folder while a track plays replaces the rows and
    drops the selection, but the session keeps playing the old file:
    the flag, the identity key and the mixer are untouched. *)
Theorem open_folder_while_playing chosen names (s : Player M) :
  chosen <> ""%string -> fs_listdir fs chosen = Ok names ->
  (scan_entries fs chosen names).2 = None ->
  let s' := snd (open_folder fs chosen s) in
  song_treeview s' = (scan_entries fs chosen names).1 /\ selected s' = None /\
  is_playing s' = is_playing s /\ current_song s' = current_song s /\ mixer s' = mixer s.
Proof.
  intros Hc Hl He s'. subst s'. rewrite (open_folder_run chosen names s Hc Hl). done.
Qed.

(** C29: round trip of [os.path.join] and [os.path.basename] on the rows:
    when the listing's names contain no ['/'] (as [os.listdir]'s never
    do), the base names of the rows' paths are the [".mp3"] names of the
    listing, in order, so [get_song_info]'s fallback title
    [os.path.basename(file_path)] is the file name. *)
Theorem scan_entries_basenames folder names :
  Forall (fun n => py_contains_char "/" n = false) names ->
  (scan_entries fs folder names).2 = None ->
  map (fun it => os_path_basename (item_path it)) (scan_entries fs folder names).1 =
  List.filter (fun n => py_endswith n ".mp3") names.
Proof.
  intros Hn He.
  transitivity (map os_path_basename (map item_path (scan_entries fs folder names).1));
    [by rewrite map_map |].
  rewrite (scan_entries_path_list folder names He), map_map.
  clear He. induction Hn as [|n names Hn _ IH]; [done |]. cbn [List.filter].
  destruct (py_endswith n ".mp3"); [| exact IH].
  cbn [map]. by rewrite os_path_basename_join, IH.
Qed.
End ScannerProperties.

Section ScannerRows.
Context (fs : FileSystem).

(** Every row of a scan was built from a successful [get_song_info],
    whose duration and size labels are its columns 2 and 3. *)
Lemma scan_entries_info folder names :
  Forall (fun it => exists artist title duration,
            get_song_info fs (item_path it) =
              Ok (artist, title, col_duration it, col_size it, duration))
    (scan_entries fs folder names).1.
Proof.
  induction names as [|n names IH]; simpl; [done |].
  destruct (py_endswith n ".mp3"); [| done].
  destruct (scan_entry fs folder n) as [it|e] eqn:Hit; [| done].
  destruct (scan_entries fs folder names) as [its e]. simpl in *. constructor; [| done].
  unfold scan_entry in Hit. destruct (split_artist_title n) as [[a t]|]; [| done].
  simpl in Hit. destruct (get_song_info fs _) as [info|] eqn:Hi; [| done].
  destruct info as [[[[? ?] ?] ?] ?]. injection Hit as <-. simpl. eauto.
Qed.
End ScannerRows.
