(* ===== verification/Playback.v ===== *)
(** * Playback: the session handlers

    [toggle_play] (src/main.py, lines 121-145), [play_previous]
    (147-154), [play_next] (156-163), [set_volume] (165-167) and
    [update_progress] (169-172), as statements of the monad [PyM] on the
    [Player] state.  They are proved against the mixer interface
    [AudioMixer] and its laws: every theorem here holds for any mixer
    that satisfies [AudioMixerLaws], pygame's included.  The
    [print(...)] of the [except] branch of [toggle_play] appends the
    caught exception to the [console] field.  The last section proves
    that Next clicks which move the selection terminate. *)

From Stdlib Require Import ZArith List String PrimFloat Lia.
From stdpp Require Import base tactics list strings.
From S2P Require Import Prelude PyBuiltins Metadata Mixer Widgets.
Import ListNotations.
Local Open Scope Z_scope.

Section Playback.
Context {M : Type} `{!AudioMixer M} (fs : FileSystem).

(** A mixer call that cannot raise. *)
Definition mixer_call (f : M -> M) : PyM (Player M) unit :=
  py_modify (fun s => set_mixer (f (mixer s)) s).

(** A mixer call that raises [pygame.error] on [None]. *)
Definition mixer_try (f : M -> option M) : PyM (Player M) unit :=
  fun s => match f (mixer s) with
           | Some m => (Ok tt, set_mixer m s)
           | None => (Raise PygameError, s)
           end.

(** Lines 130-135: a different title is selected, so the identity key
    is updated, the file loaded and played, and the bar's range set to
    the song's duration. *)
Definition load_and_play (selected_item : TreeItem) : PyM (Player M) unit :=
  let selected_file_path := item_path selected_item in
  (py_modify (set_current_song (col_title selected_item)) ;;
   mixer_try (music_load selected_file_path) ;;
   mixer_try music_play ;;
   info <- py_lift (get_song_info fs selected_file_path) ;;
   let '(_, _, _, _, duration) := info in
   py_modify (set_song_duration duration) ;;
   py_modify (fun s => set_progress_bar (bar_set_range 0 (song_duration s) (progress_bar s)) s))%py.

(** [print(f"Ошибка воспроизведения: {e}")] (line 142): one line on
    stdout for the caught exception [e]. *)
Definition print_playback_error (e : exc) (s : Player M) : Player M :=
  set_console (console s ++ [e]) s.

(** [toggle_play] (lines 121-145). *)
Definition toggle_play : PyM (Player M) unit :=
  (s <- py_get ;;
   match selected_items s with
   | [] => py_ret tt
   | (_, selected_item) :: _ =>
       if negb (is_playing s) then
         py_try
           ((if negb (String.eqb (col_title selected_item) (current_song s))
             then load_and_play selected_item
             else mixer_call music_unpause) ;;
            py_modify (set_is_playing true))
           (fun e => py_modify (print_playback_error e))
       else
         (mixer_call music_pause ;;
          py_modify (set_is_playing false))
   end)%py.

(** [play_previous] (lines 147-154). *)
Definition play_previous : PyM (Player M) unit :=
  (s <- py_get ;;
   match selected_items s with
   | [] => py_ret tt
   | (current_index, _) :: _ =>
       if 0 <? Z.of_nat current_index then
         (py_modify (tree_set_current (current_index - 1)) ;;
          toggle_play)
       else py_ret tt
   end)%py.

(** [play_next] (lines 156-163). *)
Definition play_next : PyM (Player M) unit :=
  (s <- py_get ;;
   match selected_items s with
   | [] => py_ret tt
   | (current_index, _) :: _ =>
       if Z.of_nat current_index <? top_level_item_count s - 1 then
         (py_modify (tree_set_current (current_index + 1)) ;;
          toggle_play)
       else py_ret tt
   end)%py.

(** [set_volume] (lines 165-167): [volume = value / 100]. *)
Definition set_volume (value : Z) : PyM (Player M) unit :=
  (volume <- py_lift (py_true_div value 100) ;;
   mixer_call (music_set_volume volume))%py.

(** [update_progress] (lines 169-172): [get_pos() // 1000]. *)
Definition update_progress : PyM (Player M) unit :=
  (s <- py_get ;;
   if is_playing s then
     (py_modify (set_current_position (music_get_pos (mixer s) / 1000)) ;;
      s' <- py_get ;;
      py_modify (set_progress_bar (bar_set_value (current_position s') (progress_bar s'))))
   else py_ret tt)%py.
End Playback.

(** Unfold a handler applied to a state, evaluate its plumbing and
    rewrite with the hypotheses that fix its branches. *)
Ltac handler_run :=
  unfold toggle_play, load_and_play, play_previous, play_next, set_volume,
    update_progress, mixer_call, mixer_try, print_playback_error in *;
  repeat progress (py_run; player_simpl).

(** ** Every branch of [toggle_play] *)

Section ToggleCases.
Context {M : Type} `{!AudioMixer M} (fs : FileSystem).
Implicit Types (s : Player M).

(** The states [toggle_play] can leave, with the conditions of each
    branch; it never raises (its [except] catches the mixer's and
    [get_song_info]'s exceptions). *)
Inductive toggle_result s : Player M -> Prop :=
| tr_none :
    selected_items s = [] -> toggle_result s s
| tr_pause i it :
    selected_items s = [(i, it)] -> is_playing s = true ->
    toggle_result s (set_is_playing false (set_mixer (music_pause (mixer s)) s))
| tr_resume i it :
    selected_items s = [(i, it)] -> is_playing s = false -> col_title it = current_song s ->
    toggle_result s (set_is_playing true (set_mixer (music_unpause (mixer s)) s))
| tr_load_error i it :
    selected_items s = [(i, it)] -> is_playing s = false -> col_title it <> current_song s ->
    music_load (item_path it) (mixer s) = None ->
    toggle_result s (print_playback_error PygameError (set_current_song (col_title it) s))
| tr_play_error i it m1 :
    selected_items s = [(i, it)] -> is_playing s = false -> col_title it <> current_song s ->
    music_load (item_path it) (mixer s) = Some m1 -> music_play m1 = None ->
    toggle_result s (print_playback_error PygameError (set_mixer m1 (set_current_song (col_title it) s)))
| tr_info_error i it m1 m2 e :
    selected_items s = [(i, it)] -> is_playing s = false -> col_title it <> current_song s ->
    music_load (item_path it) (mixer s) = Some m1 -> music_play m1 = Some m2 ->
    get_song_info fs (item_path it) = Raise e ->
    toggle_result s (print_playback_error e (set_mixer m2 (set_current_song (col_title it) s)))
| tr_load i it m1 m2 a t ds ss d :
    selected_items s = [(i, it)] -> is_playing s = false -> col_title it <> current_song s ->
    music_load (item_path it) (mixer s) = Some m1 -> music_play m1 = Some m2 ->
    get_song_info fs (item_path it) = Ok (a, t, ds, ss, d) ->
    toggle_result s (set_is_playing true
              (set_progress_bar (bar_set_range 0 d (progress_bar s))
                 (set_song_duration d (set_mixer m2 (set_current_song (col_title it) s))))).

Lemma toggle_play_result s :
  fst (toggle_play fs s) = Ok tt /\ toggle_result s (snd (toggle_play fs s)).
Proof.
  handler_run. destruct (selected_items s) as [|[i it] rest] eqn:Hsel.
  { handler_run. split; [done | by constructor]. }
  pose proof Hsel as Hsel'. apply selected_items_cons in Hsel' as (_ & _ & ->).
  destruct (is_playing s) eqn:Hp; handler_run; [split; [done | by eapply tr_pause] |].
  destruct (String.eqb_spec (col_title it) (current_song s)) as [Ht|Ht]; handler_run;
    [split; [done | by eapply tr_resume] |].
  destruct (music_load (item_path it) (mixer s)) as [m1|] eqn:Hl; handler_run;
    [| split; [done | by eapply tr_load_error]].
  destruct (music_play m1) as [m2|] eqn:Hpl; handler_run;
    [| split; [done | by eapply tr_play_error]].
  destruct (get_song_info fs (item_path it)) as [[[[[a t] ds] ss] d]|e] eqn:Hi; handler_run;
    split; [done | by eapply tr_load | done | by eapply tr_info_error].
Qed.

(** C1: [toggle_play] never raises, and it ends in exactly one of the seven
    states of [toggle_result], according to the selection, the flag, the
    identity key and the outcomes of [load], [play] and [get_song_info]. *)
Lemma toggle_play_cases s :
  fst (toggle_play fs s) = Ok tt /\ toggle_result s (snd (toggle_play fs s)).
Proof. by eapply toggle_play_result. Qed.
End ToggleCases.

(** ** Functional behaviour of [toggle_play], branch by branch *)

Section ToggleFunctional.
Context {M : Type} `{!AudioMixer M} (fs : FileSystem).
Implicit Types (s : Player M).

(** C28: No selected row: nothing happens. *)
Lemma toggle_play_no_selection s :
  selected_items s = [] -> toggle_play fs s = (Ok tt, s).
Proof. intros Hsel. handler_run. by rewrite Hsel. Qed.

(** Playing: the mixer is paused and the flag cleared, whatever row is
    selected. *)
Lemma toggle_play_pause s i it rest :
  selected_items s = (i, it) :: rest -> is_playing s = true ->
  toggle_play fs s = (Ok tt, set_is_playing false (set_mixer (music_pause (mixer s)) s)).
Proof. intros Hsel Hp. handler_run. by rewrite Hsel, Hp. Qed.

(** Not playing, the selected title is the identity key: resume. *)
Lemma toggle_play_resume s i it rest :
  selected_items s = (i, it) :: rest -> is_playing s = false ->
  col_title it = current_song s ->
  toggle_play fs s = (Ok tt, set_is_playing true (set_mixer (music_unpause (mixer s)) s)).
Proof.
  intros Hsel Hp Ht. handler_run. rewrite Hsel, Hp, Ht, String.eqb_refl. done.
Qed.

(** Not playing, another title: the key is updated first; a failing
    [load] leaves only that update and the printed [pygame.error], and
    the flag stays [False]. *)
Lemma toggle_play_load_fails s i it rest :
  selected_items s = (i, it) :: rest -> is_playing s = false ->
  col_title it <> current_song s ->
  music_load (item_path it) (mixer s) = None ->
  toggle_play fs s = (Ok tt, print_playback_error PygameError (set_current_song (col_title it) s)).
Proof.
  intros Hsel Hp Ht Hl. handler_run. rewrite Hsel, Hp.
  apply String.eqb_neq in Ht as ->. handler_run. rewrite Hl. by handler_run.
Qed.

(** Not playing, another title, load and play succeed and the tags are
    read: the track is loaded, started, its duration recorded and the
    bar's range set. *)
Lemma toggle_play_load s i it rest m1 m2 a t ds ss d :
  selected_items s = (i, it) :: rest -> is_playing s = false ->
  col_title it <> current_song s ->
  music_load (item_path it) (mixer s) = Some m1 ->
  music_play m1 = Some m2 ->
  get_song_info fs (item_path it) = Ok (a, t, ds, ss, d) ->
  toggle_play fs s =
    (Ok tt, set_is_playing true
              (set_progress_bar (bar_set_range 0 d (progress_bar s))
                 (set_song_duration d (set_mixer m2 (set_current_song (col_title it) s))))).
Proof.
  intros Hsel Hp Ht Hl Hpl Hi. handler_run. rewrite Hsel, Hp.
  apply String.eqb_neq in Ht as ->. handler_run. rewrite Hl. handler_run. rewrite Hpl.
  handler_run. by rewrite Hi.
Qed.
End ToggleFunctional.

(** ** Navigation *)

Section Navigation.
Context {M : Type} `{!AudioMixer M} (fs : FileSystem).
Implicit Types (s : Player M).

(** [play_previous] from a row [i > 0] selects row [i - 1] and runs
    [toggle_play] there. *)
Lemma play_previous_moves s i :
  selected s = Some i -> (0 < i)%nat -> is_Some (song_treeview s !! i) ->
  play_previous fs s = toggle_play fs (tree_set_current (i - 1) s).
Proof.
  intros Hsel Hi [it Hit]. handler_run.
  assert (selected_items s = [(i, it)]) as -> by (by apply selected_items_cons).
  destruct (Z.ltb_spec 0 (Z.of_nat i)); [done | lia].
Qed.

(** [play_next] from a row [i] before the last selects row [i + 1] and
    runs [toggle_play] there. *)
Lemma play_next_moves s i :
  selected s = Some i -> (i + 1 < length (song_treeview s))%nat ->
  play_next fs s = toggle_play fs (tree_set_current (i + 1) s).
Proof.
  intros Hsel Hi. handler_run.
  destruct (song_treeview s !! i) as [it|] eqn:Hit;
    [| apply lookup_ge_None in Hit; lia].
  assert (selected_items s = [(i, it)]) as -> by (by apply selected_items_cons).
  unfold top_level_item_count.
  destruct (Z.ltb_spec (Z.of_nat i) (Z.of_nat (length (song_treeview s)) - 1)); [done | lia].
Qed.

Lemma play_previous_at_first s :
  selected s = Some 0%nat -> play_previous fs s = (Ok tt, s).
Proof.
  intros Hsel. handler_run. unfold selected_items. rewrite Hsel.
  by destruct (song_treeview s !! 0%nat).
Qed.

(** C16: [play_previous] on the first row does nothing: the selection and
    the playing state are unchanged. *)
Theorem play_previous_first s :
  selected s = Some 0%nat -> play_previous fs s = (Ok tt, s).
Proof. by eapply play_previous_at_first. Qed.

Lemma play_next_at_end s i :
  selected s = Some i -> (length (song_treeview s) <= i + 1)%nat ->
  play_next fs s = (Ok tt, s).
Proof.
  intros Hsel Hlen. handler_run. unfold selected_items. rewrite Hsel.
  destruct (song_treeview s !! i); [| done]. player_simpl. unfold top_level_item_count.
  destruct (Z.ltb_spec (Z.of_nat i) (Z.of_nat (length (song_treeview s)) - 1)); [lia | done].
Qed.

(** C17: [play_next] on the last row does nothing. *)
Theorem play_next_last s i :
  selected s = Some i -> S i = length (song_treeview s) ->
  play_next fs s = (Ok tt, s).
Proof. intros Hsel Hlen. apply (play_next_at_end s i Hsel). lia. Qed.
End Navigation.

(** ** Session properties, against the mixer laws *)

Section Session.
Context {M : Type} `{!AudioMixer M, !AudioMixerLaws M} (fs : FileSystem).
Implicit Types (s : Player M).

Lemma play_keeps_loaded m m' : music_play m = Some m' -> music_loaded m' = music_loaded m.
Proof.
  intros Hp. destruct (music_loaded m) as [p|] eqn:Hl.
  - destruct (play_loaded m) as (m'' & Hp' & Hl' & _); [by rewrite Hl |].
    rewrite Hp in Hp'. injection Hp' as ->. by rewrite Hl'.
  - by rewrite play_unloaded in Hp.
Qed.

(** C18: pressing Play twice on a newly selected row loads and starts it
    once, then pauses it: the second press does not reload, and the
    mixer keeps the selected file. *)
Theorem toggle_play_twice s i it rest m1 m2 a t ds ss d :
  selected_items s = (i, it) :: rest -> is_playing s = false ->
  col_title it <> current_song s ->
  music_load (item_path it) (mixer s) = Some m1 -> music_play m1 = Some m2 ->
  get_song_info fs (item_path it) = Ok (a, t, ds, ss, d) ->
  let s1 := snd (toggle_play fs s) in
  is_playing s1 = true /\ music_busy (mixer s1) = true /\
  toggle_play fs s1 = (Ok tt, set_is_playing false (set_mixer (music_pause m2) s1)) /\
  music_loaded (music_pause m2) = Some (item_path it).
Proof.
  intros Hsel Hp Ht Hl Hpl Hi s1. subst s1.
  rewrite (toggle_play_load _ _ _ _ _ _ _ _ _ _ _ _ Hsel Hp Ht Hl Hpl Hi). simpl.
  destruct (load_loaded _ _ _ Hl) as [Hl1 _].
  assert (music_loaded m2 = Some (item_path it)) as Hl2 by (by rewrite (play_keeps_loaded _ _ Hpl)).
  split; [done |]. split.
  { destruct (play_loaded m1) as (m' & Hp' & _ & Hb); [by rewrite Hl1 |].
    rewrite Hpl in Hp'. by injection Hp' as ->. }
  split; [| by rewrite pause_loaded].
  by rewrite (toggle_play_pause _ _ i it rest).
Qed.

(** C7: after a failed [load] the identity key already names the new
    title, so the next Play takes the resume branch: the session reports
    playing while the mixer still holds the previous file (or nothing,
    and then it is silent). *)
Theorem toggle_play_after_failed_load s i it rest :
  selected_items s = (i, it) :: rest -> is_playing s = false ->
  col_title it <> current_song s ->
  music_load (item_path it) (mixer s) = None ->
  let s2 := snd (toggle_play fs (snd (toggle_play fs s))) in
  is_playing s2 = true /\ current_song s2 = col_title it /\
  music_loaded (mixer s2) = music_loaded (mixer s) /\
  (music_loaded (mixer s) = None -> music_busy (mixer s2) = false).
Proof.
  intros Hsel Hp Ht Hl s2. subst s2.
  rewrite (toggle_play_load_fails _ _ _ _ _ Hsel Hp Ht Hl). simpl.
  rewrite (toggle_play_resume _ _ i it rest); try done. simpl.
  split; [done |]. split; [done |]. split; [apply unpause_loaded | apply unpause_unloaded].
Qed.

(** Moving the selection to row [j] and running [toggle_play] while a
    track plays pauses it and keeps it loaded. *)
Lemma move_then_toggle_pauses s j it' :
  song_treeview s !! j = Some it' -> is_playing s = true ->
  let s' := snd (toggle_play fs (tree_set_current j s)) in
  selected s' = Some j /\ is_playing s' = false /\
  music_busy (mixer s') = false /\ current_song s' = current_song s /\
  music_loaded (mixer s') = music_loaded (mixer s).
Proof.
  intros Hit Hp s'. subst s'.
  rewrite (toggle_play_pause _ _ j it' []);
    [| by apply selected_items_set_current | by unfold tree_set_current; rewrite Hit].
  unfold tree_set_current. rewrite Hit. simpl.
  split; [done |]. split; [done |]. split; [apply pause_busy |]. split; [done |].
  apply pause_loaded.
Qed.

Lemma play_next_pauses s i it' :
  selected s = Some i -> song_treeview s !! (i + 1)%nat = Some it' ->
  is_playing s = true ->
  let s' := snd (play_next fs s) in
  selected s' = Some (i + 1)%nat /\ is_playing s' = false /\
  music_busy (mixer s') = false /\ current_song s' = current_song s /\
  music_loaded (mixer s') = music_loaded (mixer s).
Proof.
  intros Hsel Hit Hp s'. subst s'.
  assert (Hlen : (i + 1 < length (song_treeview s))%nat) by (by apply lookup_lt_Some in Hit).
  rewrite (play_next_moves _ _ _ Hsel Hlen). by apply (move_then_toggle_pauses s _ it').
Qed.

(** C9: [play_next] while a track plays does not start the next track:
    it moves the selection and pauses the current one. *)
Theorem play_next_while_playing s i it' :
  selected s = Some i -> song_treeview s !! (i + 1)%nat = Some it' ->
  is_playing s = true ->
  let s' := snd (play_next fs s) in
  selected s' = Some (i + 1)%nat /\ is_playing s' = false /\
  music_busy (mixer s') = false /\ current_song s' = current_song s /\
  music_loaded (mixer s') = music_loaded (mixer s).
Proof. by eapply play_next_pauses. Qed.

(** C26: [play_previous] while a track plays does not start the
    previous track either (the spec says it loads and plays the track at
    the new cursor): it moves the selection up one row and pauses the
    current track, which stays loaded, with the identity key unchanged. *)
Theorem play_previous_while_playing s i it' :
  selected s = Some (S i) -> is_Some (song_treeview s !! S i) ->
  song_treeview s !! i = Some it' -> is_playing s = true ->
  let s' := snd (play_previous fs s) in
  selected s' = Some i /\ is_playing s' = false /\
  music_busy (mixer s') = false /\ current_song s' = current_song s /\
  music_loaded (mixer s') = music_loaded (mixer s).
Proof.
  intros Hsel Hrow Hit Hp s'. subst s'.
  rewrite (play_previous_moves _ _ (S i) Hsel ltac:(lia) Hrow), Nat.sub_1_r. simpl.
  by apply (move_then_toggle_pauses s _ it').
Qed.

(** C10: the identity key is the title, so selecting another row with the
    same title and pressing Play resumes the mixer's track: the selected
    row's file is not loaded. *)
Theorem toggle_play_same_title s i it rest :
  selected_items s = (i, it) :: rest -> is_playing s = false ->
  col_title it = current_song s ->
  let s' := snd (toggle_play fs s) in
  is_playing s' = true /\ music_loaded (mixer s') = music_loaded (mixer s).
Proof.
  intros Hsel Hp Ht s'. subst s'.
  rewrite (toggle_play_resume _ _ i it rest Hsel Hp Ht). simpl.
  split; [done | apply unpause_loaded].
Qed.
End Session.

(** ** Volume and progress *)

Section VolumeProgress.
Context {M : Type} `{!AudioMixer M, !AudioMixerLaws M}.
Implicit Types (s : Player M).

Lemma set_volume_run value f s :
  py_true_div value 100 = Ok f ->
  set_volume (M := M) value s = (Ok tt, set_mixer (music_set_volume f (mixer s)) s).
Proof. intros Hd. handler_run. by rewrite Hd. Qed.

(** C19: a slider value [v] in [0..100] reaches the mixer as the float
    [v / 100] of Python's true division (the binary64 quotient of
    [float(v)] and [float(100)]), which lies in [[0.0, 1.0]]; nothing
    else changes. *)
Theorem set_volume_spec value s :
  0 <= value <= 100 ->
  let f := (py_float_of_int value / py_float_of_int 100)%float in
  set_volume (M := M) value s = (Ok tt, set_mixer (music_set_volume f (mixer s)) s) /\
  music_volume (mixer (snd (set_volume (M := M) value s))) = f /\
  (0 <=? f)%float = true /\ (f <=? 1)%float = true.
Proof.
  intros Hv f. destruct (py_true_div_100_range value Hv) as (g & Hd & H0 & H1).
  assert (Hf : py_true_div value 100 = Ok f) by done.
  rewrite Hd in Hf. injection Hf as <-.
  rewrite (set_volume_run _ _ _ Hd). cbn [snd]. player_simpl. by rewrite set_volume_volume.
Qed.

(** C20: [set_volume(0)] then [set_volume(100)] hand the mixer exactly
    [0.0] and then [1.0]. *)
Theorem set_volume_0_then_100 s :
  let s0 := snd (set_volume (M := M) 0 s) in
  let s1 := snd (set_volume (M := M) 100 s0) in
  music_volume (mixer s0) = 0%float /\ music_volume (mixer s1) = 1%float.
Proof.
  cbv zeta. rewrite (set_volume_run 0 0%float); [| by vm_compute]. cbn [snd].
  rewrite (set_volume_run 100 1%float); [| by vm_compute]. cbn [snd]. player_simpl.
  by rewrite !set_volume_volume.
Qed.

(** C30: one step of the slider always raises the volume handed to the
    mixer: [v / 100 < (v + 1) / 100] as floats, for [v] in [0..99]. *)
Theorem set_volume_monotone value s :
  0 <= value < 100 ->
  (music_volume (mixer (snd (set_volume (M := M) value s))) <?
   music_volume (mixer (snd (set_volume (M := M) (value + 1) s))))%float = true.
Proof.
  intros Hv. destruct (py_true_div_100_step value Hv) as (f & g & Hf & Hg & Hlt).
  rewrite (set_volume_run _ _ _ Hf), (set_volume_run _ _ _ Hg). simpl.
  by rewrite !set_volume_volume.
Qed.

(** C21: while playing, the timer tick stores [get_pos() // 1000]: at
    least [-1], and non-negative while the mixer is busy.  When not
    playing it changes nothing. *)
Theorem update_progress_spec s :
  let s' := snd (update_progress s) in
  fst (update_progress s) = Ok tt /\
  (is_playing s = false -> s' = s) /\
  (is_playing s = true ->
     current_position s' = music_get_pos (mixer s) / 1000 /\
     -1 <= current_position s' /\
     (music_busy (mixer s) = true -> 0 <= current_position s')).
Proof.
  handler_run. destruct (is_playing s); simpl; [| done].
  split; [done |]. split; [done |]. intros _. split; [done |].
  pose proof (get_pos_range (mixer s)) as Hr.
  split; [apply Z.div_le_lower_bound; lia |].
  intros Hb. apply Z.div_pos; [by apply get_pos_busy | lia].
Qed.
End VolumeProgress.


(** ** Frame lemmas: what each handler leaves alone *)

Section Frame.
Context {M : Type} `{!AudioMixer M} (fs : FileSystem).
Implicit Types (s : Player M).

Lemma toggle_play_frame s :
  let s' := snd (toggle_play fs s) in
  song_treeview s' = song_treeview s /\ selected s' = selected s /\
  folder_path s' = folder_path s /\ volume_slider s' = volume_slider s.
Proof. destruct (toggle_play_result fs s) as [_ Hr]. by destruct Hr. Qed.

(** Whenever [toggle_play] leaves the session playing, it was playing
    already with the same key, or the key is the title of the selected
    row. *)
Lemma toggle_play_playing_key s :
  is_playing (snd (toggle_play fs s)) = true ->
  (is_playing s = true /\ current_song (snd (toggle_play fs s)) = current_song s) \/
  exists i it, selected_items s = [(i, it)] /\
               current_song (snd (toggle_play fs s)) = col_title it.
Proof.
  destruct (toggle_play_result fs s) as [_ Hr]. destruct Hr; simpl; try done; eauto.
Qed.
End Frame.

(** ** Diagnostics *)

Section Diagnostics.
Context {M : Type} `{!AudioMixer M} (fs : FileSystem).
Implicit Types (s : Player M).

(** The outcome of the reload sequence (lines 130-135) on a state. *)
Lemma load_and_play_outcome s it :
  fst (load_and_play fs it s) =
    match music_load (item_path it) (mixer s) with
    | None => Raise PygameError
    | Some m1 =>
        match music_play m1 with
        | None => Raise PygameError
        | Some _ => match get_song_info fs (item_path it) with
                    | Raise e => Raise e
                    | Ok _ => Ok tt
                    end
        end
    end.
Proof.
  handler_run. destruct (music_load (item_path it) (mixer s)) as [m1|]; handler_run; try done.
  destruct (music_play m1); handler_run; try done.
  by destruct (get_song_info fs (item_path it)) as [[[[[? ?] ?] ?] ?]|].
Qed.

Lemma app_unit_neq {A} (l : list A) x : l <> l ++ [x].
Proof. intros H. apply (f_equal length) in H. rewrite length_app in H. simpl in H. lia. Qed.

Lemma selected_items_unique s i it i' it' :
  selected_items s = [(i, it)] -> selected_items s = [(i', it')] -> it' = it.
Proof. intros -> [= _ ->]. done. Qed.

(** What [toggle_play] prints: the exception of the reload sequence, on
    the branch that runs it. *)
Lemma toggle_play_console s :
  console (snd (toggle_play fs s)) =
    console s ++
    match selected_items s with
    | (_, it) :: _ =>
        if is_playing s || String.eqb (col_title it) (current_song s) then []
        else match fst (load_and_play fs it s) with
             | Raise e => [e]
             | Ok _ => []
             end
    | [] => []
    end.
Proof.
  destruct (toggle_play_result fs s) as [_ Hr].
  destruct Hr as [Hs|? ? Hs Hp|? ? Hs Hp Ht|? ? Hs Hp Ht Hl|? ? ? Hs Hp Ht Hl Hpl
                 |? ? ? ? ? Hs Hp Ht Hl Hpl Hi|? ? ? ? ? ? ? ? ? Hs Hp Ht Hl Hpl Hi];
    rewrite Hs, ?Hp; unfold print_playback_error; player_simpl.
  all: first [ by rewrite app_nil_r | by rewrite Ht, String.eqb_refl, app_nil_r
             | apply String.eqb_neq in Ht as ->;
               rewrite load_and_play_outcome, Hl, ?Hpl, ?Hi; by rewrite ?app_nil_r ].
Qed.

Lemma toggle_play_prints_not_playing s :
  console (snd (toggle_play fs s)) <> console s -> is_playing (snd (toggle_play fs s)) = false.
Proof.
  destruct (toggle_play_result fs s) as [_ Hr].
  by destruct Hr; unfold print_playback_error; player_simpl.
Qed.

(** C37: a failure to start playback is caught and reported, as the
    spec's error taxonomy (b) requires: [toggle_play] prints at most one
    diagnostic line; it prints one for the exception [e] exactly when a
    row is selected, the session is not playing, the row's title is not
    the key and the reload sequence ([load], [play], [get_song_info])
    raises [e]; and after printing, the session is not playing. *)
Theorem toggle_play_reports_failure s e :
  let s' := snd (toggle_play fs s) in
  (console s' = console s ++ [e] <->
   exists i it, selected_items s = [(i, it)] /\ is_playing s = false /\
     col_title it <> current_song s /\ fst (load_and_play fs it s) = Raise e) /\
  (console s' = console s ++ [e] -> is_playing s' = false) /\
  (console s' = console s \/ exists e', console s' = console s ++ [e']).
Proof.
  cbv zeta. pose proof (toggle_play_prints_not_playing s) as Hnp.
  rewrite toggle_play_console in *.
  destruct (selected_items s) as [|[i it] rest] eqn:Hs.
  { rewrite app_nil_r in *. split; [split; [by intros ?%app_unit_neq | by intros (? & ? & ? & _)] |].
    split; [by intros ?%app_unit_neq | by left]. }
  pose proof Hs as Hs1. apply selected_items_cons in Hs1 as (_ & _ & ->).
  destruct (is_playing s) eqn:Hp;
    [| destruct (String.eqb_spec (col_title it) (current_song s)) as [Ht|Ht]]; simpl in *;
    [| | destruct (fst (load_and_play fs it s)) as [[]|e0] eqn:Hlp].
  4:{ split; [split |].
      - intros [_ [= ->]]%app_inj_tail. eauto 10.
      - intros (? & ? & [= <- <-] & _ & _ & Hr'). rewrite Hlp in Hr'. by injection Hr' as ->.
      - split; [| eauto]. intros _. apply Hnp. intros H. by apply (app_unit_neq (console s) e0). }
  all: rewrite ?app_nil_r in *; split;
    [split; [by intros ?%app_unit_neq | intros (? & ? & [= <- <-] & ? & ? & ?); congruence]
    | split; [by intros ?%app_unit_neq | by left]].
Qed.
End Diagnostics.

(** ** Navigation, set_volume and update_progress by cases *)

Section OtherCases.
Context {M : Type} `{!AudioMixer M} (fs : FileSystem).
Implicit Types (s : Player M).

Lemma play_previous_cases s :
  play_previous fs s = (Ok tt, s) \/
  exists j, is_Some (song_treeview s !! j) /\
            play_previous fs s = toggle_play fs (tree_set_current j s).
Proof.
  destruct (selected_items s) as [|[i it] rest] eqn:Hsel.
  - left. handler_run. by rewrite Hsel.
  - apply selected_items_cons in Hsel as (Hs & Hi & ->).
    destruct i as [|i]; [left; by apply play_previous_at_first |].
    right. exists i. split; [apply (lookup_lt_is_Some_2 _ i); apply lookup_lt_Some in Hi; lia |].
    rewrite (play_previous_moves _ _ (S i)); [| done | lia | by eexists].
    by replace (S i - 1)%nat with i by lia.
Qed.

Lemma play_next_cases s :
  play_next fs s = (Ok tt, s) \/
  exists j, is_Some (song_treeview s !! j) /\
            play_next fs s = toggle_play fs (tree_set_current j s).
Proof.
  destruct (selected s) as [i|] eqn:Hs.
  - destruct (decide (i + 1 < length (song_treeview s))%nat) as [Hlt|Hge].
    + right. exists (i + 1)%nat. split; [by apply lookup_lt_is_Some_2 |].
      by apply play_next_moves.
    + left. apply (play_next_at_end fs s i Hs). lia.
  - left. handler_run. unfold selected_items. by rewrite Hs.
Qed.

Lemma set_volume_cases value s :
  (exists f, py_true_div value 100 = Ok f /\
             set_volume value s = (Ok tt, set_mixer (music_set_volume f (mixer s)) s)) \/
  (exists e, set_volume (M := M) value s = (Raise e, s)).
Proof.
  destruct (py_true_div value 100) as [f|e] eqn:Hd.
  - left. exists f. split; [done |]. handler_run; by rewrite Hd.
  - right. exists e. handler_run; by rewrite Hd.
Qed.

Lemma update_progress_run s :
  update_progress s =
    (Ok tt, if is_playing s then
              let s1 := set_current_position (music_get_pos (mixer s) / 1000) s in
              set_progress_bar (bar_set_value (current_position s1) (progress_bar s1)) s1
            else s).
Proof. handler_run. by destruct (is_playing s). Qed.
End OtherCases.

(** ** Termination of repeated Next clicks *)

Section NextTermination.
Context {M : Type} `{!AudioMixer M} (fs : FileSystem).
Implicit Types (s : Player M).

(** A click on Next that moves the selection. *)
Definition next_moves s s' : Prop :=
  play_next fs s = (Ok tt, s') /\ selected s' <> selected s.

(** The variant: the rows from the selected one to the end. *)
Definition rows_ahead s : nat :=
  match selected s with
  | Some i => length (song_treeview s) - i
  | None => 0
  end.

Lemma next_moves_decreases s s' : next_moves s s' -> (rows_ahead s' < rows_ahead s)%nat.
Proof.
  intros [Hd Hne]. unfold rows_ahead.
  destruct (selected s) as [i|] eqn:Hs.
  2:{ exfalso. apply Hne. handler_run. unfold selected_items in Hd. rewrite Hs in Hd.
      by injection Hd as <-. }
  destruct (decide (i + 1 < length (song_treeview s))%nat) as [Hlt|Hge].
  - rewrite (play_next_moves fs s i Hs Hlt) in Hd.
    destruct (toggle_play_frame fs (tree_set_current (i + 1) s)) as (Ht & Hsel & _).
    rewrite Hd in Ht, Hsel. simpl in Ht, Hsel. rewrite Ht, Hsel.
    unfold tree_set_current. destruct (lookup_lt_is_Some_2 _ _ Hlt) as [it ->]. simpl. lia.
  - rewrite (play_next_at_end fs s i Hs ltac:(lia)) in Hd. injection Hd as <-. by rewrite Hs in Hne.
Qed.

(** C34: clicking Next cannot move the selection forever: the relation
    "a Next click moves the selection from [s] to [s']" is well founded,
    whatever the mixer does (each move selects the following row of an
    unchanged list, so the rows ahead of the selection decrease). *)
Theorem next_clicks_terminate : well_founded (fun s' s => next_moves s s').
Proof.
  apply (well_founded_lt_compat _ rows_ahead). intros s' s. apply next_moves_decreases.
Qed.
End NextTermination.
