(* ===== verification/EventLoop.v ===== *)
(** * EventLoop: the Qt dispatch loop and the reachable states

    Qt runs every handler to completion, one at a time, on the GUI thread
    (src/main.py, connections at lines 36-72 and the loop at 175-178).
    An [event] is one user action or timer expiry; [dispatch] runs the
    connected handler ([move_slider] for the volume slider, whose
    [setValue] bounds the value and emits only on a change); an exception that escapes a slot aborts the
    application (PyQt6 calls [qFatal] on an unhandled exception).
    [reachable] is the step relation's closure from [__init__];
    [player_inv] is the invariant of reachable states. *)

From Stdlib Require Import ZArith List String PrimFloat Lia.
From stdpp Require Import base tactics list strings.
From S2P Require Import Prelude PyBuiltins Metadata Mixer Widgets Scanner Playback.
Import ListNotations.
Local Open Scope Z_scope.

Inductive event : Type :=
| OpenFolder (chosen : string)      (** File > Open; the dialog's result *)
| SelectRow (row : option nat)      (** a click in the tree ([None]: deselect) *)
| ClickPlay
| ClickPrevious
| ClickNext
| SliderMoved (value : Z)           (** the user moves the volume slider to [value] *)
| TimerTick.                        (** the 1000 ms [QTimer] *)

Section EventLoop.
Context {M : Type} `{!AudioMixer M} (fs : FileSystem).
Implicit Types (s : Player M).

(** A click on a row, handled by the tree widget itself. *)
Definition select_row (row : option nat) s : Player M :=
  match row with
  | Some i => tree_set_current i s
  | None => set_tree (song_treeview s) None s
  end.

(** The user drags the slider (or uses the wheel or the keys) to [v]:
    Qt's [setValue(v)] on the slider and, when the value changed, the
    slot [set_volume] connected to [valueChanged] (line 47), called with
    the bounded value. *)
Definition move_slider (v : Z) : PyM (Player M) unit :=
  (s <- py_get ;;
   match slider_set_value v (volume_slider s) with
   | (sl', Some v') => py_modify (set_volume_slider sl') ;; set_volume v'
   | (_, None) => py_ret tt
   end)%py.

(** The slot connected to each signal (lines 36-72); the timer tick is
    preceded by one second of playback time. *)
Definition dispatch (ev : event) : PyM (Player M) unit :=
  match ev with
  | OpenFolder chosen => open_folder fs chosen
  | SelectRow row => py_modify (select_row row)
  | ClickPlay => toggle_play fs
  | ClickPrevious => play_previous fs
  | ClickNext => play_next fs
  | SliderMoved value => move_slider value
  | TimerTick =>
      (py_modify (fun s => set_mixer (music_elapse 1000 (mixer s)) s) ;;
       update_progress)%py
  end.

(** What the widgets let a user produce: a click selects a row that
    exists (the slider bounds its own values). *)
Definition event_ok s (ev : event) : Prop :=
  match ev with
  | SelectRow (Some i) => (i < length (song_treeview s))%nat
  | _ => True
  end.

(** The application: running, or aborted by an escaping exception. *)
Inductive app : Type :=
| Running (s : Player M)
| Aborted (e : exc).

Definition step_app (a : app) (ev : event) : app :=
  match a with
  | Aborted e => Aborted e
  | Running s =>
      match dispatch ev s with
      | (Ok _, s') => Running s'
      | (Raise e, _) => Aborted e
      end
  end.

(** A run of the loop over a sequence of events. *)
Definition run (a : app) (evs : list event) : app := fold_left step_app evs a.

(** The states reachable from [__init__] with mixer [m0]. *)
Inductive reachable (m0 : M) : Player M -> Prop :=
| reach_init : reachable m0 (init_player m0)
| reach_step s ev s' :
    reachable m0 s -> event_ok s ev -> dispatch ev s = (Ok tt, s') ->
    reachable m0 s'.
End EventLoop.

(** ** Checked runs *)

Section CheckedRuns.
Context {M : Type} `{!AudioMixer M} (fs : FileSystem).
Implicit Types (s : Player M).

Definition event_okb s (ev : event) : bool :=
  match ev with
  | SelectRow (Some i) => Nat.ltb i (length (song_treeview s))
  | _ => true
  end.

Lemma event_okb_ok s ev : event_okb s ev = true -> event_ok s ev.
Proof.
  destruct ev as [|[i|]| | | |v|]; simpl; try done.
  by intros ?%Nat.ltb_lt.
Qed.

(** A run in which every event is permitted and no handler raises. *)
Fixpoint run_checked s (evs : list event) : option (Player M) :=
  match evs with
  | [] => Some s
  | ev :: evs' =>
      if event_okb s ev then
        match dispatch fs ev s with
        | (Ok tt, s') => run_checked s' evs'
        | (Raise _, _) => None
        end
      else None
  end.

Lemma run_checked_reachable m0 s evs s' :
  reachable fs m0 s -> run_checked s evs = Some s' -> reachable fs m0 s'.
Proof.
  revert s. induction evs as [|ev evs IH]; intros s Hs Hrun; simpl in Hrun.
  - by injection Hrun as <-.
  - destruct (event_okb s ev) eqn:Hok; [| done].
    destruct (dispatch fs ev s) as [[[]|e] s1] eqn:Hd; [| done].
    apply (IH s1); [| done]. eapply reach_step; [done | by apply event_okb_ok | done].
Qed.
End CheckedRuns.

(** ** The invariant of reachable states *)

Section Invariant.
Context {M : Type} `{!AudioMixer M, !AudioMixerLaws M} (fs : FileSystem).
Implicit Types (s : Player M).

(** A row as [open_folder] builds it: its title ends with [".mp3"], its
    file's tags were read successfully and its duration and size columns
    are the labels [get_song_info] returned. *)
Definition row_ok (it : TreeItem) : Prop :=
  py_endswith (col_title it) ".mp3" = true /\
  exists artist title duration,
    get_song_info fs (item_path it) = Ok (artist, title, col_duration it, col_size it, duration).

Definition volume_ok (m : M) : Prop :=
  (0 <=? music_volume m)%float = true /\ (music_volume m <=? 1)%float = true.

(** The slider keeps the range of [setRange(0, 100)]. *)
Definition slider_ok (sl : Slider) : Prop :=
  sl_min sl = 0 /\ sl_max sl = 100 /\ 0 <= sl_value sl <= 100.

(** The mixer plays at the volume the slider shows: [value / 100]. *)
Definition volume_sync s : Prop :=
  py_true_div (sl_value (volume_slider s)) 100 = Ok (music_volume (mixer s)).

Record player_inv s : Prop := {
  inv_selected : forall i, selected s = Some i -> (i < length (song_treeview s))%nat;
  inv_rows : Forall row_ok (song_treeview s);
  inv_playing : is_playing s = true -> current_song s <> ""%string;
  inv_slider : slider_ok (volume_slider s);
  inv_sync : volume_sync s;
  inv_bar : bar_ok (progress_bar s)
}.

Definition bar_okb (b : ProgressBar) : bool :=
  (pb_min b =? 0) && (0 <=? pb_max b) &&
  ((pb_max b =? 0) || ((-1 <=? pb_value b) && (pb_value b <=? pb_max b))).

Lemma bar_okb_sound b : bar_okb b = true -> bar_ok b.
Proof.
  unfold bar_okb, bar_ok. rewrite !andb_true_iff, orb_true_iff, andb_true_iff, !Z.eqb_eq, !Z.leb_le.
  tauto.
Qed.

Definition row_infob (it : TreeItem) : bool :=
  match get_song_info fs (item_path it) with
  | Ok (_, _, ds, ss, _) => String.eqb ds (col_duration it) && String.eqb ss (col_size it)
  | Raise _ => false
  end.

Lemma row_infob_sound it :
  row_infob it = true ->
  exists artist title duration,
    get_song_info fs (item_path it) = Ok (artist, title, col_duration it, col_size it, duration).
Proof.
  unfold row_infob. destruct (get_song_info fs (item_path it)) as [[[[[a t] ds] ss] d]|]; [| done].
  intros [->%String.eqb_eq ->%String.eqb_eq]%andb_true_iff. eauto.
Qed.

(** A decision procedure for the invariant, for concrete states; the
    equation [volume_sync] between two floats is checked apart. *)
Definition player_invb s : bool :=
  match selected s with
  | Some i => Nat.ltb i (length (song_treeview s))
  | None => true
  end &&
  forallb (fun it => py_endswith (col_title it) ".mp3" && row_infob it) (song_treeview s) &&
  (negb (is_playing s) || negb (String.eqb (current_song s) "")) &&
  (sl_min (volume_slider s) =? 0) && (sl_max (volume_slider s) =? 100) &&
  (0 <=? sl_value (volume_slider s)) && (sl_value (volume_slider s) <=? 100) &&
  bar_okb (progress_bar s).

Lemma player_invb_sound s : player_invb s = true -> volume_sync s -> player_inv s.
Proof.
  unfold player_invb. intros H Hsync. apply andb_true_iff in H as [H Hbar%bar_okb_sound].
  apply andb_true_iff in H as [H Hv1%Z.leb_le]. apply andb_true_iff in H as [H Hv0%Z.leb_le].
  apply andb_true_iff in H as [H Hmax%Z.eqb_eq]. apply andb_true_iff in H as [H Hmin%Z.eqb_eq].
  apply andb_true_iff in H as [H Hp]. apply andb_true_iff in H as [Hs Hr].
  split; [| | | by repeat split | done | done].
  - intros i Hi. rewrite Hi in Hs. by apply Nat.ltb_lt.
  - apply Forall_forall. intros it Hit. eapply forallb_forall in Hr; [| by apply list_elem_of_In].
    apply andb_true_iff in Hr as [Ht Hi]. split; [done | by apply row_infob_sound].
  - intros Hpl. rewrite Hpl in Hp. simpl in Hp. by apply String.eqb_neq, negb_true_iff.
Qed.

Lemma player_inv_volume s : player_inv s -> volume_ok (mixer s).
Proof.
  intros [_ _ _ (_ & _ & Hr) Hsync _].
  destruct (py_true_div_100_range _ Hr) as (f & Hf & H0 & H1).
  unfold volume_sync in Hsync. rewrite Hsync in Hf. injection Hf as <-. by split.
Qed.

(** The handlers other than [set_volume] keep the volume; a state with
    the slider and the tree of an invariant state, and the same volume,
    satisfies it. *)
Lemma volume_sync_same s s' :
  volume_slider s' = volume_slider s -> music_volume (mixer s') = music_volume (mixer s) ->
  volume_sync s -> volume_sync s'.
Proof. unfold volume_sync. intros H1 H2. by rewrite H1, H2. Qed.

Lemma toggle_play_volume s :
  music_volume (mixer (snd (toggle_play fs s))) = music_volume (mixer s).
Proof.
  destruct (toggle_play_result fs s) as [_ Hr].
  destruct Hr; simpl;
    rewrite ?pause_volume, ?unpause_volume, ?(play_volume _ _ ltac:(eassumption)),
      ?(load_volume _ _ _ ltac:(eassumption)); done.
Qed.

Lemma row_ok_title_nonempty it : row_ok it -> col_title it <> ""%string.
Proof. intros [Ht _] He. rewrite He in Ht. discriminate. Qed.

Lemma selected_row_ok s i it :
  player_inv s -> selected_items s = [(i, it)] -> row_ok it.
Proof.
  intros Hinv Hsel. apply selected_items_cons in Hsel as (_ & Hi & _).
  eapply Forall_lookup_1; [apply Hinv | exact Hi].
Qed.

Lemma tree_set_current_inv s j :
  player_inv s -> player_inv (tree_set_current j s).
Proof.
  intros [Hsel Hrows Hp Hv]. unfold tree_set_current.
  destruct (song_treeview s !! j) eqn:Hj; split; simpl; try done.
  - intros i [= <-]. by apply lookup_lt_Some in Hj.
Qed.

Lemma toggle_play_bar s :
  bar_ok (progress_bar s) -> bar_ok (progress_bar (snd (toggle_play fs s))).
Proof.
  intros Hb. destruct (toggle_play_result fs s) as [_ Hr].
  destruct Hr; simpl; [done .. | by apply bar_set_range_ok].
Qed.

Lemma toggle_play_inv s :
  player_inv s -> player_inv (snd (toggle_play fs s)).
Proof.
  intros Hinv. destruct (toggle_play_frame fs s) as (Ht & Hs & _ & Hsl).
  pose proof (toggle_play_playing_key fs s) as Hkey.
  split; [rewrite Ht, Hs; apply Hinv | rewrite Ht; apply Hinv | | rewrite Hsl; apply Hinv | |
          apply toggle_play_bar, Hinv].
  - intros Hp. destruct (Hkey Hp) as [[Hp0 ->] | (i & it & Hsel & ->)];
      [by apply Hinv | eapply row_ok_title_nonempty, selected_row_ok; eauto].
  - apply (volume_sync_same s); [done | apply toggle_play_volume | apply Hinv].
Qed.
End Invariant.

Section Slider.
Context {M : Type} `{!AudioMixer M}.
Implicit Types (s : Player M).

Lemma move_slider_run v s :
  move_slider v s =
    let sl := volume_slider s in
    if slider_bound v sl =? sl_value sl then (Ok tt, s)
    else set_volume (slider_bound v sl)
           (set_volume_slider (mkSlider (sl_min sl) (sl_max sl) (slider_bound v sl)) s).
Proof. unfold move_slider, slider_set_value. py_run. by destruct (_ =? _). Qed.

Lemma move_slider_run_ok v s :
  slider_ok (volume_slider s) ->
  let v' := Z.max 0 (Z.min 100 v) in
  exists f, py_true_div v' 100 = Ok f /\
    move_slider v s =
      (Ok tt, if v' =? sl_value (volume_slider s) then s
              else set_mixer (music_set_volume f (mixer s))
                     (set_volume_slider (mkSlider 0 100 v') s)).
Proof.
  intros (Hmin & Hmax & _). cbv zeta.
  destruct (py_true_div_100_range (Z.max 0 (Z.min 100 v))) as (f & Hf & _); [lia |].
  exists f. split; [done |]. rewrite move_slider_run. cbv zeta.
  unfold slider_bound. rewrite Hmin, Hmax. destruct (_ =? _); [done |].
  by rewrite (set_volume_run _ f).
Qed.
End Slider.

Section SliderSpec.
Context {M : Type} `{!AudioMixer M, !AudioMixerLaws M}.
Implicit Types (s : Player M).

(** C31: moving the volume slider to any value [v] (dragged, scrolled or
    typed, in range or not) never raises and leaves the slider showing
    [v] bounded to [0..100]; when that changes the slider's value, the
    mixer's volume becomes the bounded value over 100, a float in
    [[0.0, 1.0]]; otherwise nothing at all changes. *)
Theorem move_slider_spec v s :
  slider_ok (volume_slider s) ->
  let v' := Z.max 0 (Z.min 100 v) in
  let s' := snd (move_slider v s) in
  fst (move_slider v s) = Ok tt /\ volume_slider s' = mkSlider 0 100 v' /\
  (v' = sl_value (volume_slider s) -> s' = s) /\
  (v' <> sl_value (volume_slider s) ->
     py_true_div v' 100 = Ok (music_volume (mixer s')) /\
     (0 <=? music_volume (mixer s'))%float = true /\ (music_volume (mixer s') <=? 1)%float = true).
Proof.
  intros Hsl. destruct (move_slider_run_ok v s Hsl) as (f & Hf & ->). cbv zeta.
  destruct (py_true_div_100_range (Z.max 0 (Z.min 100 v))) as (g & Hg & H0 & H1); [lia |].
  rewrite Hf in Hg. injection Hg as <-.
  destruct Hsl as (Hmin & Hmax & _). destruct (Z.eqb_spec (Z.max 0 (Z.min 100 v)) (sl_value (volume_slider s))) as [He|Hne].
  - destruct (volume_slider s) as [lo hi x] eqn:E. simpl in *. subst. done.
  - player_simpl. rewrite set_volume_volume. done.
Qed.
End SliderSpec.

Section Preservation.
Context {M : Type} `{!AudioMixer M, !AudioMixerLaws M} (fs : FileSystem).
Implicit Types (s : Player M).

Lemma open_folder_inv chosen s s' :
  player_inv fs s -> open_folder fs chosen s = (Ok tt, s') -> player_inv fs s'.
Proof.
  intros Hinv Hd. destruct (String.eqb_spec chosen "") as [->|Hc].
  { rewrite open_folder_cancel in Hd. by injection Hd as <-. }
  destruct (fs_listdir fs chosen) as [names|e] eqn:Hl;
    [| by rewrite (open_folder_listdir_error fs chosen e s Hc Hl) in Hd].
  rewrite (open_folder_run fs chosen names s Hc Hl) in Hd.
  destruct (scan_entries fs chosen names) as [items [e|]] eqn:Hscan; [done |].
  injection Hd as <-. destruct Hinv as [_ _ Hp Hv]. split; simpl; try done.
  pose proof (scan_entries_title_list fs chosen names) as Ht.
  pose proof (scan_entries_info fs chosen names) as Hi.
  rewrite Hscan in Ht, Hi. simpl in *.
  apply Forall_and; split; done.
Qed.

Lemma move_slider_inv v s s' :
  player_inv fs s -> move_slider v s = (Ok tt, s') -> player_inv fs s'.
Proof.
  intros Hinv Hd. pose proof (inv_slider _ _ Hinv) as Hsl.
  destruct (move_slider_run_ok v s Hsl) as (f & Hf & Hrun). rewrite Hrun in Hd.
  injection Hd as <-. destruct (_ =? _); [done |].
  destruct Hinv. split; player_simpl; try done.
  - unfold slider_ok. simpl. lia.
  - unfold volume_sync. player_simpl. by rewrite set_volume_volume.
Qed.

Lemma tick_inv s s' :
  player_inv fs s -> dispatch fs TimerTick s = (Ok tt, s') -> player_inv fs s'.
Proof.
  intros Hinv Hd. simpl in Hd.
  cbv beta iota delta [py_bind py_modify] in Hd. rewrite update_progress_run in Hd.
  injection Hd as <-. pose proof (inv_sync _ _ Hinv) as Hsync.
  assert (volume_sync (set_mixer (music_elapse 1000 (mixer s)) s)).
  { apply (volume_sync_same s); [done | apply elapse_volume | done]. }
  destruct (is_playing s) eqn:Ep; split; player_simpl; try done; try apply bar_set_value_ok; apply Hinv.
Qed.

(** The bar's range is that of the last track loaded (or the initial
    [0..100] while [song_duration] is still [0]). *)
Definition bar_tracks_duration s : Prop :=
  pb_min (progress_bar s) = 0 /\
  (pb_max (progress_bar s) = Z.max 0 (song_duration s) \/
   (song_duration s = 0 /\ pb_max (progress_bar s) = 100)).

Lemma bar_tracks_same s s' :
  progress_bar s' = progress_bar s -> song_duration s' = song_duration s ->
  bar_tracks_duration s -> bar_tracks_duration s'.
Proof. unfold bar_tracks_duration. intros H1 H2. by rewrite H1, H2. Qed.

Lemma open_folder_bar chosen s s' :
  open_folder fs chosen s = (Ok tt, s') ->
  progress_bar s' = progress_bar s /\ song_duration s' = song_duration s.
Proof.
  intros Hd. destruct (String.eqb_spec chosen "") as [->|Hc].
  { rewrite open_folder_cancel in Hd. by injection Hd as <-. }
  destruct (fs_listdir fs chosen) as [names|e] eqn:Hl;
    [| by rewrite (open_folder_listdir_error fs chosen e s Hc Hl) in Hd].
  rewrite (open_folder_run fs chosen names s Hc Hl) in Hd. injection Hd as _ <-. done.
Qed.

(** [setRange(0, d)] on a range [0..max] with [max >= 0] gives [0..max(0, d)]. *)
Lemma bar_set_range_max d b :
  pb_min b = 0 -> 0 <= pb_max b ->
  pb_min (bar_set_range 0 d b) = 0 /\ pb_max (bar_set_range 0 d b) = Z.max 0 d.
Proof.
  intros Hmin Hmax. unfold bar_set_range. rewrite Hmin.
  destruct (Z.eqb_spec d (pb_max b)); simpl; [lia |].
  by destruct (_ || _).
Qed.

Lemma toggle_play_bar_range s :
  bar_tracks_duration s -> bar_tracks_duration (snd (toggle_play fs s)).
Proof.
  intros Hb. destruct (toggle_play_result fs s) as [_ Hr].
  destruct Hr; try (eapply bar_tracks_same; [..| exact Hb]; done).
  destruct Hb as [Hmin Hmax]. unfold bar_tracks_duration. player_simpl.
  assert (Hpos : 0 <= pb_max (progress_bar s)) by lia.
  destruct (bar_set_range_max d (progress_bar s) Hmin Hpos) as [-> ->]. split; [done | by left].
Qed.

Lemma tick_bar_range s s' :
  bar_tracks_duration s -> dispatch fs TimerTick s = (Ok tt, s') -> bar_tracks_duration s'.
Proof.
  intros Hb Hd. simpl in Hd.
  cbv beta iota delta [py_bind py_modify] in Hd. rewrite update_progress_run in Hd.
  injection Hd as <-. destruct (is_playing s); [| done].
  unfold bar_tracks_duration, bar_set_value in *. player_simpl. by destruct (_ && _).
Qed.

(** The initial mixer plays at full volume (pygame starts at 1.0), the
    volume the slider shows after [setValue(100)]. *)
Context (m0 : M) (Hm0 : music_volume m0 = 1%float).

Lemma init_player_inv : player_inv fs (init_player m0).
Proof.
  split; simpl; try done.
  - unfold volume_sync. simpl. rewrite Hm0. by vm_compute.
  - apply bar_okb_sound. by vm_compute.
Qed.

(** Induction over the reachable states with one obligation per
    handler: [open_folder], a click in the tree, [toggle_play], the
    navigation buttons (which run [toggle_play] after moving the
    selection, or do nothing), the slider and the timer. *)
Lemma reachable_by_handler (P : Player M -> Prop) :
  P (init_player m0) ->
  (forall s chosen s', P s -> open_folder fs chosen s = (Ok tt, s') -> P s') ->
  (forall s row, P s -> P (select_row row s)) ->
  (forall s, P s -> P (snd (toggle_play fs s))) ->
  (forall s j, is_Some (song_treeview s !! j) -> P s ->
               P (snd (toggle_play fs (tree_set_current j s)))) ->
  (forall s v s', P s -> move_slider v s = (Ok tt, s') -> P s') ->
  (forall s s', P s -> dispatch fs TimerTick s = (Ok tt, s') -> P s') ->
  forall s, reachable fs m0 s -> P s.
Proof.
  intros Hinit Hopen Hsel Htog Hnav Hsl Htick.
  induction 1 as [|s ev s' _ IH Hok Hd]; [done |].
  destruct ev as [chosen|row| | | |v|]; simpl in Hd.
  - by eapply Hopen.
  - injection Hd as <-. by apply Hsel.
  - specialize (Htog s IH). by rewrite Hd in Htog.
  - destruct (play_previous_cases fs s) as [Hn | (j & Hj & Hn)]; rewrite Hn in Hd;
      [by injection Hd as <- | specialize (Hnav s j Hj IH); by rewrite Hd in Hnav].
  - destruct (play_next_cases fs s) as [Hn | (j & Hj & Hn)]; rewrite Hn in Hd;
      [by injection Hd as <- | specialize (Hnav s j Hj IH); by rewrite Hd in Hnav].
  - by eapply Hsl.
  - by eapply Htick.
Qed.

Lemma reachable_player_inv s : reachable fs m0 s -> player_inv fs s.
Proof.
  apply reachable_by_handler.
  - apply init_player_inv.
  - intros. by eapply open_folder_inv.
  - intros s' [i|] Hs; [by apply tree_set_current_inv | destruct Hs; by split].
  - apply toggle_play_inv.
  - intros s' j _ Hs. by apply toggle_play_inv, tree_set_current_inv.
  - intros. by eapply move_slider_inv.
  - intros. by eapply tick_inv.
Qed.

(** C2: every state reachable from [__init__] (with a mixer at the
    initial volume 1.0) satisfies the invariant: the selection is a row,
    every row's title ends with [".mp3"] and its tags were read, a
    playing session has a non-empty identity key, the slider keeps its
    range [0..100], and the mixer's volume is the slider's value over
    100 (so it lies in [0.0, 1.0]). *)
Lemma reachable_inv s : reachable fs m0 s -> player_inv fs s.
Proof. apply reachable_player_inv. Qed.

(** C35: the rows of every reachable state are well typed: the duration
    column reads back as a number of seconds (so the ["N/A"] that the
    [except] branch of [get_song_info] prepares never reaches the tree:
    that branch always ends in [UnboundLocalError]) and the size column
    is a ["<n> MB"] label. *)
Theorem reachable_rows_typed s :
  reachable fs m0 s ->
  Forall (fun it => (exists d, parse_duration_label (col_duration it) = Some d) /\
                    col_duration it <> "N/A"%string /\
                    exists sz, col_size it = size_label sz)
    (song_treeview s).
Proof.
  intros Hr. eapply Forall_impl; [apply (inv_rows _ _ (reachable_player_inv s Hr)) |].
  intros it (_ & a & t & d & Hi). apply get_song_info_labels in Hi as [Hd Hs].
  rewrite Hd. pose proof (parse_duration_label_of d) as Hp.
  split; [eauto | split; [| done]]. intros He. by rewrite He in Hp.
Qed.
(** C36: in every reachable state the progress bar's range is
    [0..max(0, song_duration)], the duration of the last track loaded
    ([setRange(0, self.song_duration)] at line 135 follows the
    assignment of line 134), or still the initial [0..100] while
    [song_duration] is [0]; no other handler touches the range. *)
Theorem reachable_bar_range s :
  reachable fs m0 s ->
  pb_min (progress_bar s) = 0 /\
  (pb_max (progress_bar s) = Z.max 0 (song_duration s) \/
   (song_duration s = 0 /\ pb_max (progress_bar s) = 100)).
Proof.
  apply (reachable_by_handler bar_tracks_duration).
  - split; [reflexivity | right; split; reflexivity].
  - intros s0 chosen s' Hb Hd. destruct (open_folder_bar chosen s0 s' Hd).
    by eapply bar_tracks_same.
  - intros s0 [i|] Hb; [| done]. unfold select_row, tree_set_current.
    by destruct (song_treeview s0 !! i).
  - apply toggle_play_bar_range.
  - intros s0 j _ Hb. apply toggle_play_bar_range. unfold tree_set_current.
    by destruct (song_treeview s0 !! j).
  - intros s0 v s' Hb Hd. rewrite move_slider_run in Hd. cbv zeta in Hd.
    destruct (_ =? _); [by injection Hd as <- |].
    match type of Hd with
    | set_volume ?x ?y = _ =>
        destruct (set_volume_cases x y) as [(f & _ & Hs) | (e & Hs)];
        rewrite Hs in Hd; [by injection Hd as <- | done]
    end.
  - apply tick_bar_range.
Qed.
End Preservation.

(** ** The spec's playback state machine *)

(** The states of spec section 4.2. *)
Inductive pstate : Type := Stopped | Playing | Paused.

#[export] Instance pstate_eq_dec : EqDecision pstate.
Proof. solve_decision. Defined.

(** The user commands of the machine. *)
Inductive command : Type := CmdToggle | CmdNext | CmdPrevious.

(** The transitions the spec allows: Play starts, pauses and resumes;
    Next and Previous always end playing (the new track). *)
Inductive spec_step : pstate -> command -> pstate -> Prop :=
| sp_start : spec_step Stopped CmdToggle Playing
| sp_pause : spec_step Playing CmdToggle Paused
| sp_resume : spec_step Paused CmdToggle Playing
| sp_next st : spec_step st CmdNext Playing
| sp_previous st : spec_step st CmdPrevious Playing.

(** The abstraction of a player state: the flag, and whether a track was
    ever loaded (a non-empty identity key). *)
Definition abstract {M} (s : Player M) : pstate :=
  if is_playing s then Playing
  else if String.eqb (current_song s) "" then Stopped else Paused.

Section Refinement.
Context {M : Type} `{!AudioMixer M, !AudioMixerLaws M} (fs : FileSystem).
Implicit Types (s : Player M).

(** C3: On a state satisfying the invariant, with a row selected whose
    file the mixer can load, [toggle_play] implements the spec's
    Play transition. *)
Theorem toggle_play_refines s i it :
  player_inv fs s -> selected_items s = [(i, it)] ->
  music_load (item_path it) (mixer s) <> None ->
  spec_step (abstract s) CmdToggle (abstract (snd (toggle_play fs s))).
Proof.
  intros Hinv Hsel Hload.
  destruct (selected_row_ok fs s i it Hinv Hsel) as [Htitle (? & ? & ? & Hinfo)].
  pose proof (inv_playing _ _ Hinv) as Hkey.
  destruct (toggle_play_result fs s) as [_ Hr]. unfold abstract.
  destruct Hr as [Hs|? ? Hs Hp|? ? Hs Hp Ht|? ? Hs Hp Ht Hl|? ? ? Hs Hp Ht Hl Hpl
                 |? ? ? ? ? Hs Hp Ht Hl Hpl Hi|? ? ? ? ? ? ? ? ? Hs Hp Ht Hl Hpl Hi];
    rewrite Hsel in Hs; try discriminate; injection Hs as <- <-; player_simpl; rewrite ?Hp.
  - destruct (String.eqb_spec (current_song s) ""); [by destruct (Hkey Hp) | constructor].
  - destruct (String.eqb_spec (current_song s) "") as [He|]; [| constructor].
    rewrite He in Ht. by rewrite Ht in Htitle.
  - done.
  - destruct (load_loaded _ _ _ Hl) as [Hl1 _].
    by destruct (play_loaded m1) as (? & Hpl' & _); [rewrite Hl1 | rewrite Hpl in Hpl'].
  - rewrite Hinfo in Hi. discriminate.
  - by destruct (String.eqb_spec (current_song s) ""); constructor.
Qed.
End Refinement.

Section Divergences.
Context {M : Type} `{!AudioMixer M, !AudioMixerLaws M} (fs : FileSystem).
Implicit Types (s : Player M).

(** C8: Next while playing ends in the spec's Paused state, a transition
    the spec does not have (it requires Playing the next track). *)
Theorem play_next_breaks_spec s i it' :
  player_inv fs s -> is_playing s = true -> selected s = Some i ->
  song_treeview s !! (i + 1)%nat = Some it' ->
  abstract (snd (play_next fs s)) = Paused /\
  ~ spec_step (abstract s) CmdNext (abstract (snd (play_next fs s))).
Proof.
  intros Hinv Hp Hsel Hit.
  destruct (play_next_pauses fs s i it' Hsel Hit Hp) as (_ & Hp' & _ & Hk & _).
  assert (abstract (snd (play_next fs s)) = Paused) as ->.
  { unfold abstract. rewrite Hp', Hk.
    destruct (String.eqb_spec (current_song s) ""); [by destruct (inv_playing _ _ Hinv Hp) | done]. }
  split; [done | inversion 1].
Qed.

(** C25: every exception that escapes [open_folder] is fatal, where the
    spec's error taxonomy says no operation is: opening a folder (not
    cancelled) aborts the application with [e] exactly when
    [os.listdir] raises [e], or the listing is read and the scan of its
    [".mp3"] entries raises [e] at the first failing entry (an untagged
    or unreadable file gives [UnboundLocalError], a failing
    [os.path.getsize] its [OSError]). *)
Theorem open_folder_aborts s chosen e :
  chosen <> ""%string ->
  step_app fs (Running s) (OpenFolder chosen) = Aborted e <->
  fs_listdir fs chosen = Raise e \/
  exists names, fs_listdir fs chosen = Ok names /\ (scan_entries fs chosen names).2 = Some e.
Proof.
  intros Hc. unfold step_app. simpl.
  destruct (fs_listdir fs chosen) as [names|e0] eqn:Hl.
  - rewrite (open_folder_run fs chosen names s Hc Hl).
    destruct ((scan_entries fs chosen names).2) as [e0|] eqn:He; simpl.
    + split; [intros [= ->]; right; eauto | intros [? | (? & [= <-] & He')]; [done |]].
      rewrite He in He'. by injection He' as ->.
    + split; [done | intros [? | (? & [= <-] & He')]; [done |]]. by rewrite He in He'.
  - rewrite (open_folder_listdir_error fs chosen e0 s Hc Hl).
    split; [intros [= ->]; by left | intros [[= ->] | (? & ? & _)]; done].
Qed.

(** C40: the stale session survives a folder change (the spec's
    stale-cursor risk): when a track plays, opening another folder
    without error, selecting one of its rows and pressing Play does not
    start that row: Play finds [is_playing] still set and pauses the old
    track, whose identity key is kept; the new row stays selected. *)
Theorem reopen_then_play_pauses s chosen names j it :
  is_playing s = true -> chosen <> ""%string -> fs_listdir fs chosen = Ok names ->
  (scan_entries fs chosen names).2 = None -> (scan_entries fs chosen names).1 !! j = Some it ->
  exists s', run fs (Running s) [OpenFolder chosen; SelectRow (Some j); ClickPlay] = Running s' /\
    selected s' = Some j /\ is_playing s' = false /\ mixer s' = music_pause (mixer s) /\
    current_song s' = current_song s /\ song_treeview s' = (scan_entries fs chosen names).1.
Proof.
  intros Hp Hc Hl He Hj. unfold run. simpl.
  rewrite (open_folder_run fs chosen names s Hc Hl), He. simpl.
  set (s1 := set_tree _ None _).
  assert (Hsel : selected_items (tree_set_current j s1) = [(j, it)]).
  { apply selected_items_set_current. subst s1. exact Hj. }
  rewrite (toggle_play_pause fs _ j it [] Hsel); [| subst s1; unfold tree_set_current; simpl; rewrite Hj; exact Hp].
  eexists. split; [reflexivity |]. subst s1. unfold tree_set_current. simpl. by rewrite Hj.
Qed.
End Divergences.
