(* ===== verification/Timeline.v ===== *)
(** * Timeline: the one-second timer against pygame's music channel

    The [QTimer] of [__init__] (lines 70-72) calls [update_progress]
    (lines 169-172) every 1000 ms while the music channel plays on.
    With the [Pygame] model of [Mixer] as the channel, a run of timer
    ticks is computed in closed form: while the track lasts, each tick
    advances the channel by a second and the stored position follows
    [get_pos() // 1000]; within [ceil(len / 1000)] ticks the track has
    ended, and from then on [get_pos()] is [-1], while the session keeps
    [is_playing] set (nothing in the program observes the end).  The
    progress bar of range [[0..d]] meanwhile shows [min(seconds, d)]. *)

From Stdlib Require Import ZArith List String PrimFloat Lia.
From stdpp Require Import base tactics list strings.
From S2P Require Import Prelude PyBuiltins Metadata Mixer Widgets Scanner Playback EventLoop.
Import ListNotations.
Import Pygame.
Local Open Scope Z_scope.

(** [n] expiries of the timer with no other event between them. *)
Definition ticks (n : nat) : list event := repeat TimerTick n.

Section Timeline.
Context (decode : string -> option Z) (fs : FileSystem).
#[local] Instance timeline_mixer : AudioMixer PgMusic := pygame_mixer decode.
Implicit Types (s : Player PgMusic).

Lemma run_ticks_S (a : app) n :
  run fs a (ticks (S n)) = run fs (step_app fs a TimerTick) (ticks n).
Proof. reflexivity. Qed.

Lemma run_ticks_aborted e n : run fs (Aborted e) (ticks n) = Aborted e.
Proof. induction n as [|n IH]; [done | by rewrite run_ticks_S]. Qed.

(** One tick: the channel advances a second, then [update_progress]. *)
Lemma tick_step s :
  step_app fs (Running s) TimerTick =
    Running (let s1 := set_mixer (pg_elapse 1000 (mixer s)) s in
             if is_playing s then
               set_progress_bar (bar_set_value (pg_get_pos (mixer s1) / 1000) (progress_bar s1))
                 (set_current_position (pg_get_pos (mixer s1) / 1000) s1)
             else s1).
Proof.
  unfold step_app. simpl. cbv [py_bind py_modify]. rewrite update_progress_run.
  player_simpl. by destruct (is_playing s).
Qed.

(** A tick of a playing session whose channel is [t] ms into a track of
    [len] ms: the channel moves to [t + 1000], or to the end. *)
Lemma tick_playing s p len t v :
  is_playing s = true -> mixer s = mkPg (Some p) len (Some t) false v ->
  let pos := if t + 1000 <? len then Some (t + 1000) else None in
  exists s', step_app fs (Running s) TimerTick = Running s' /\
    mixer s' = mkPg (Some p) len pos false v /\ is_playing s' = true /\
    current_position s' = pg_get_pos (mkPg (Some p) len pos false v) / 1000 /\
    song_treeview s' = song_treeview s /\ selected s' = selected s /\
    progress_bar s' = bar_set_value (current_position s') (progress_bar s).
Proof.
  intros Hp Hm. rewrite tick_step, Hp, Hm. eexists. split; [reflexivity |].
  unfold pg_elapse, pg_busy. simpl. rewrite Hp. by destruct (_ <? _).
Qed.

(** Once the track has ended, ticks leave the channel alone and store
    [-1 // 1000 = -1]. *)
Lemma ticks_ended s p len v n :
  is_playing s = true -> mixer s = mkPg (Some p) len None false v -> (0 < n)%nat ->
  exists s', run fs (Running s) (ticks n) = Running s' /\
    mixer s' = mixer s /\ is_playing s' = true /\ current_position s' = -1 /\
    song_treeview s' = song_treeview s /\ selected s' = selected s.
Proof.
  revert s. induction n as [|n IH]; intros s Hp Hm Hn; [lia |].
  rewrite run_ticks_S, tick_step, Hp, Hm. cbv zeta. player_simpl.
  cbn [pg_elapse pg_busy pg_get_pos pg_loaded pg_pos negb].
  set (s1 := set_progress_bar _ _).
  destruct n as [|n].
  - exists s1. by subst s1.
  - destruct (IH s1) as (s' & Hrun & Hm' & Hp' & Hc & Ht & Hs); try done; [lia |].
    exists s'. rewrite Hrun, Hm', Ht, Hs. by subst s1.
Qed.

(** C32: every track that plays is heard to its end: from a playing
    session whose channel is [t] ms into a track of [len] ms, any [n > 0]
    timer ticks with [len <= t + 1000 n] reach the end of the track (the
    channel is idle and [get_pos()] is [-1]); the session still reports
    playing, stores the position [-1] and keeps its rows and selection,
    so the end of a track is never acted upon. *)
Theorem track_end_reached s p len t v n :
  is_playing s = true -> mixer s = mkPg (Some p) len (Some t) false v ->
  (0 < n)%nat -> len <= t + 1000 * Z.of_nat n ->
  exists s', run fs (Running s) (ticks n) = Running s' /\
    pg_busy (mixer s') = false /\ pg_get_pos (mixer s') = -1 /\
    is_playing s' = true /\ current_position s' = -1 /\
    song_treeview s' = song_treeview s /\ selected s' = selected s.
Proof.
  revert s t. induction n as [|n IH]; intros s t Hp Hm Hn Hlen; [lia |].
  destruct (tick_playing s p len t v Hp Hm) as (s1 & Hstep & Hm1 & Hp1 & Hc1 & Ht1 & Hs1 & _).
  rewrite run_ticks_S, Hstep. destruct (Z.ltb_spec (t + 1000) len) as [Hlt|Hge].
  - destruct (IH s1 (t + 1000)) as (s' & Hrun & Hrest); [done | done | lia | lia |].
    exists s'. rewrite Hrun, <- Ht1, <- Hs1. by split.
  - destruct n as [|n].
    + exists s1. rewrite Hm1, Ht1, Hs1, Hc1. by cbn.
    + destruct (ticks_ended s1 p len v (S n)) as (s' & Hrun & Hm' & Hp' & Hc & Ht & Hs);
        [done | done | lia |].
      exists s'. rewrite Hrun, Hm', Hm1, Ht, Hs. by cbn.
Qed.

(** C33: while the track lasts, the stored position follows the channel:
    after [k] ticks from a playing session [t >= 0] ms into a track of
    [len] ms, with [t + 1000 k < len], the channel is [t + 1000 k] ms in
    and busy, and (once a tick has run) [current_position] is
    [(t + 1000 k) // 1000], the whole seconds played. *)
Theorem track_progress s p len t v k :
  is_playing s = true -> mixer s = mkPg (Some p) len (Some t) false v -> 0 <= t ->
  t + 1000 * Z.of_nat k < len ->
  exists s', run fs (Running s) (ticks k) = Running s' /\
    mixer s' = mkPg (Some p) len (Some (t + 1000 * Z.of_nat k)) false v /\
    pg_busy (mixer s') = true /\ is_playing s' = true /\
    ((0 < k)%nat -> current_position s' = (t + 1000 * Z.of_nat k) / 1000).
Proof.
  revert s t. induction k as [|k IH]; intros s t Hp Hm Ht0 Hlen.
  { exists s. rewrite Hm, Z.add_0_r. split; [done |]. split; [done |]. split; [done |]. by split; [| lia]. }
  destruct (tick_playing s p len t v Hp Hm) as (s1 & Hstep & Hm1 & Hp1 & Hc1 & _).
  assert (Hlt : t + 1000 < len) by lia. apply Z.ltb_lt in Hlt. rewrite Hlt in Hm1, Hc1.
  rewrite run_ticks_S, Hstep.
  destruct (IH s1 (t + 1000)) as (s' & Hrun & Hm' & Hb & Hp' & Hc); [done | done | lia | lia |].
  exists s'. replace (t + 1000 * Z.of_nat (S k)) with (t + 1000 + 1000 * Z.of_nat k) by lia.
  split; [done |]. split; [done |]. split; [done |]. split; [done |]. intros _.
  destruct k as [|k]; [| apply Hc; lia].
  simpl in Hrun. injection Hrun as <-. rewrite Hc1. cbn. f_equal. lia.
Qed.

(** While the track lasts, a bar of range [[0..d]] showing
    [min(t // 1000, d)] keeps showing [min(seconds played, d)]: each tick
    offers the next second, which [setValue] takes up to [d] and ignores
    beyond it. *)
Lemma bar_follows d s p len t v k :
  0 < d -> is_playing s = true -> mixer s = mkPg (Some p) len (Some t) false v -> 0 <= t ->
  t + 1000 * Z.of_nat k < len -> progress_bar s = mkBar 0 d (Z.min (t / 1000) d) ->
  exists s', run fs (Running s) (ticks k) = Running s' /\
    progress_bar s' = mkBar 0 d (Z.min (t / 1000 + Z.of_nat k) d).
Proof.
  revert s t. induction k as [|k IH]; intros s t Hd Hp Hm Ht Hlen Hb.
  { exists s. by rewrite Z.add_0_r. }
  destruct (tick_playing s p len t v Hp Hm) as (s1 & Hstep & Hm1 & Hp1 & Hc1 & _ & _ & Hb1).
  assert (Hlt : t + 1000 < len) by lia. apply Z.ltb_lt in Hlt. rewrite Hlt in Hm1, Hc1.
  assert (Hsec : (t + 1000) / 1000 = t / 1000 + 1).
  { by rewrite <- (Z.div_add t 1 1000) by lia. }
  destruct (IH s1 (t + 1000)) as (s' & Hrun & Hb'); [done | done | done | lia | lia | |].
  - rewrite Hb1, Hc1, Hb, Hsec. cbn. rewrite Z.max_r, Hsec by lia.
    pose proof (Z.div_pos t 1000 Ht ltac:(lia)).
    destruct (Z.le_gt_cases (t / 1000 + 1) d).
    + rewrite bar_set_value_in_range by (simpl; lia). simpl. f_equal. lia.
    + unfold bar_set_value. simpl. destruct (Z.ltb_spec d (t / 1000 + 1)); [| lia].
      destruct (Z.eqb_spec d 0); [lia |]. simpl. f_equal. lia.
  - exists s'. rewrite run_ticks_S, Hstep, Hrun, Hb', Hsec. split; [done |]. do 2 f_equal. lia.
Qed.

(** C38: the progress bar follows the track: from a playing session [t]
    ms into a track of [len] ms whose bar has the range [[0..d]] (as
    [setRange(0, song_duration)] leaves it) with [t // 1000 < d], after
    [k > 0] ticks with [t + 1000 k < len] the bar shows
    [min(t // 1000 + k, d)]: the seconds played, and [d] (a full bar)
    once they pass the tag's duration while the decoded track plays on. *)
Theorem track_bar s p len t v d k :
  is_playing s = true -> mixer s = mkPg (Some p) len (Some t) false v -> 0 <= t ->
  pb_min (progress_bar s) = 0 -> pb_max (progress_bar s) = d -> t / 1000 < d ->
  (0 < k)%nat -> t + 1000 * Z.of_nat k < len ->
  exists s', run fs (Running s) (ticks k) = Running s' /\
    progress_bar s' = mkBar 0 d (Z.min (t / 1000 + Z.of_nat k) d).
Proof.
  intros Hp Hm Ht Hmin Hmax Hd Hk Hlen. destruct k as [|k]; [lia |].
  destruct (tick_playing s p len t v Hp Hm) as (s1 & Hstep & Hm1 & Hp1 & Hc1 & _ & _ & Hb1).
  assert (Hlt : t + 1000 < len) by lia. apply Z.ltb_lt in Hlt. rewrite Hlt in Hm1, Hc1.
  assert (Hsec : (t + 1000) / 1000 = t / 1000 + 1) by (by rewrite <- (Z.div_add t 1 1000) by lia).
  pose proof (Z.div_pos t 1000 Ht ltac:(lia)).
  destruct (bar_follows d s1 p len (t + 1000) v k) as (s' & Hrun & Hb'); [lia | done | done | lia | lia | |].
  - rewrite Hb1, Hc1. cbn. rewrite Z.max_r, Hsec, bar_set_value_in_range, Hmin, Hmax by lia.
    f_equal. lia.
  - exists s'. rewrite run_ticks_S, Hstep, Hrun, Hb', Hsec. split; [done |]. do 2 f_equal. lia.
Qed.
End Timeline.
