(* ===== verification/Scenarios.v ===== *)
(** * Scenarios: whole runs of the event loop on a concrete folder

    A folder [/music] with [A-One.mp3] (tagged, 125.5 s, 4 MiB),
    [cover.jpg], [Two.mp3] (2 MiB, 64 s, tagged or not) and [Bad.mp3]
    (tagged but not decodable), a folder [/covers] of images, a folder [/dup] with [A-Song.mp3] and
    [B-Song.mp3] (two rows titled ["Song.mp3"]), the pygame model of [Mixer] as the mixer,
    and the events a user produces.  The runs are evaluated by
    [vm_compute]; they exhibit the behaviours the spec's example and
    error sections describe differently, and refute the spec's session
    invariant by two reachable states. *)

From Stdlib Require Import ZArith List String PrimFloat.
From stdpp Require Import base tactics list strings.
From S2P Require Import Prelude PyBuiltins Metadata Mixer Widgets Scanner Playback EventLoop Timeline.
Import ListNotations.
Import Pygame.
Local Open Scope string_scope.
Local Open Scope Z_scope.

Definition tagged (artist title : option string) (secs : float) : outcome (option AudioFile) :=
  Ok (Some (mkAudioFile (Some (mkTag artist title)) (Some (mkAudioInfo secs)))).

(** [two_tagged]: whether [Two.mp3] carries an ID3 tag. *)
Definition demo_fs (two_tagged : bool) : FileSystem := {|
  fs_listdir := fun d =>
    if String.eqb d "/music" then Ok ["A-One.mp3"; "cover.jpg"; "Two.mp3"; "Bad.mp3"]
    else if String.eqb d "/dup" then Ok ["A-Song.mp3"; "B-Song.mp3"]
    else if String.eqb d "/covers" then Ok ["front.jpg"; "back.png"]
    else Raise OSError;
  fs_getsize := fun p =>
    if String.eqb p "/music/A-One.mp3" then Ok 4194304
    else if String.eqb p "/music/Two.mp3" then Ok 2097152
    else if String.eqb p "/music/Bad.mp3" then Ok 1000
    else if String.eqb p "/dup/A-Song.mp3" then Ok 3145728
    else if String.eqb p "/dup/B-Song.mp3" then Ok 3145728
    else Raise OSError;
  fs_eyed3 := fun p =>
    if String.eqb p "/music/A-One.mp3" then tagged (Some "Artist A") (Some "One") 125.5
    else if String.eqb p "/music/Two.mp3" then
      if two_tagged then tagged None None 64.0
      else Ok (Some (mkAudioFile None (Some (mkAudioInfo 64.0))))
    else if String.eqb p "/music/Bad.mp3" then tagged None None 3.0
    else if String.eqb p "/dup/A-Song.mp3" then tagged None None 100.0
    else if String.eqb p "/dup/B-Song.mp3" then tagged None None 100.0
    else Ok None
|}.

(** What SDL_mixer can decode, with the track lengths in milliseconds. *)
Definition demo_decode (p : string) : option Z :=
  if String.eqb p "/music/A-One.mp3" then Some 125700
  else if String.eqb p "/music/Two.mp3" then Some 64000
  else if String.eqb p "/dup/A-Song.mp3" then Some 100000
  else if String.eqb p "/dup/B-Song.mp3" then Some 100000
  else None.

#[local] Instance demo_mixer : AudioMixer PgMusic := pygame_mixer demo_decode.
#[local] Instance demo_mixer_laws : AudioMixerLaws PgMusic := pygame_mixer_laws demo_decode.

Definition start : app (M := PgMusic) := Running (init_player pg_init).

Definition state_of (a : app (M := PgMusic)) : option (Player PgMusic) :=
  match a with
  | Running s => Some s
  | Aborted _ => None
  end.

(** The state after a checked run from [__init__] (with every file tagged). *)
Definition demo_after (evs : list event) : Player PgMusic :=
  match run_checked (demo_fs true) (init_player pg_init) evs with
  | Some s => s
  | None => init_player pg_init
  end.

Lemma demo_after_reachable evs :
  is_Some (run_checked (demo_fs true) (init_player pg_init) evs) ->
  reachable (demo_fs true) pg_init (demo_after evs).
Proof.
  intros [s Hs]. unfold demo_after. rewrite Hs.
  eapply run_checked_reachable; [constructor | exact Hs].
Qed.

Lemma pg_init_volume : music_volume pg_init = 1%float.
Proof. reflexivity. Qed.


(** ** Runs *)

(** The spec's example folder, with an untagged [Two.mp3], does not
    produce a row with ["N/A"]: the scan raises [UnboundLocalError] and
    the application aborts. *)
Example spec_example_scan_aborts :
  run (demo_fs false) start [OpenFolder "/music"] = Aborted UnboundLocalError.
Proof. vm_compute. reflexivity. Qed.

(** With every file tagged, the rows follow the listing order and
    skip [cover.jpg]; the title column keeps the [".mp3"] extension
    (["One.mp3"], where the spec's example shows ["One"]); sizes round
    down to whole MiB. *)
Example spec_example_rows :
  option_map song_treeview (state_of (run (demo_fs true) start [OpenFolder "/music"])) =
  Some [mkItem "A" "One.mp3" "2:05" "4 MB" "/music/A-One.mp3";
        mkItem "Unknown Artist" "Two.mp3" "1:04" "2 MB" "/music/Two.mp3";
        mkItem "Unknown Artist" "Bad.mp3" "0:03" "0 MB" "/music/Bad.mp3"].
Proof. vm_compute. reflexivity. Qed.

(** The end of a track is not handled (the general statement is
    [Timeline.track_end_reached]): after [Two.mp3] (64 s) has
    played out, the session still reports playing, does not advance, and
    the timer stores position [-1]. *)
Example track_end_keeps_playing :
  option_map (fun s => (is_playing s, current_position s, music_busy (mixer s), selected s))
    (state_of (run (demo_fs true) start
                 ([OpenFolder "/music"; SelectRow (Some 1%nat); ClickPlay] ++ ticks 64))) =
  Some (true, -1, false, Some 1%nat).
Proof. vm_compute. reflexivity. Qed.

(** ** Concrete instances of the theorems *)

Definition rowA : TreeItem := mkItem "A" "One.mp3" "2:05" "4 MB" "/music/A-One.mp3".
Definition rowTwo : TreeItem := mkItem "Unknown Artist" "Two.mp3" "1:04" "2 MB" "/music/Two.mp3".
Definition rowBad : TreeItem := mkItem "Unknown Artist" "Bad.mp3" "0:03" "0 MB" "/music/Bad.mp3".
Definition rowB : TreeItem := mkItem "B" "Song.mp3" "1:40" "3 MB" "/dup/B-Song.mp3".

(** Row 0 ([A-One.mp3]) selected, nothing played yet. *)
Definition sA := demo_after [OpenFolder "/music"; SelectRow (Some 0%nat)].
(** Row 0 playing. *)
Definition sPlayA := demo_after [OpenFolder "/music"; SelectRow (Some 0%nat); ClickPlay].
(** Row 2 ([Bad.mp3], the last row) selected. *)
Definition sBad := demo_after [OpenFolder "/music"; SelectRow (Some 2%nat)].
(** Row 1 ([Two.mp3]) playing. *)
Definition sPlayTwo := demo_after [OpenFolder "/music"; SelectRow (Some 1%nat); ClickPlay].
(** [A-One.mp3] playing, then the folder [/dup] opened. *)
Definition sReopen := demo_after [OpenFolder "/music"; SelectRow (Some 0%nat); ClickPlay; OpenFolder "/dup"].
(** [Bad.mp3] selected and Play pressed twice: the load fails, then the stale key resumes. *)
Definition sBadTwice := demo_after [OpenFolder "/music"; SelectRow (Some 2%nat); ClickPlay; ClickPlay].
(** In [/dup]: [A-Song.mp3] played and paused, then row 1 ([B-Song.mp3]) selected. *)
Definition sDup :=
  demo_after [OpenFolder "/dup"; SelectRow (Some 0%nat); ClickPlay; ClickPlay; SelectRow (Some 1%nat)].

Lemma reachable_inv_witness :
  reachable (demo_fs true) pg_init sPlayA /\ player_inv (demo_fs true) sPlayA.
Proof.
  assert (H : reachable (demo_fs true) pg_init sPlayA)
    by (apply demo_after_reachable; vm_compute; by eexists).
  split; [exact H | exact (reachable_inv (demo_fs true) pg_init pg_init_volume sPlayA H)].
Defined.

Lemma toggle_play_refines_witness :
  selected_items sA = [(0%nat, rowA)] /\ music_load "/music/A-One.mp3" (mixer sA) <> None /\
  spec_step (abstract sA) CmdToggle (abstract (snd (toggle_play (demo_fs true) sA))).
Proof.
  split; [vm_compute; reflexivity |]. split; [vm_compute; discriminate |].
  apply (toggle_play_refines (demo_fs true) sA 0 rowA);
    [apply player_invb_sound; vm_compute; reflexivity | vm_compute; reflexivity
    | vm_compute; discriminate].
Defined.

Lemma open_folder_spec_witness :
  open_folder (demo_fs true) "/music" (init_player pg_init) =
    (outcome_of_exc (scan_entries (demo_fs true) "/music"
                       ["A-One.mp3"; "cover.jpg"; "Two.mp3"; "Bad.mp3"]).2,
     set_tree (scan_entries (demo_fs true) "/music"
                 ["A-One.mp3"; "cover.jpg"; "Two.mp3"; "Bad.mp3"]).1 None
       (set_folder_path "/music" (init_player pg_init))).
Proof. apply (open_folder_spec (demo_fs true)); [discriminate | reflexivity]. Defined.

Lemma scan_entry_untagged_witness :
  song_info_try (demo_fs false) "/music/Two.mp3" = Raise AttributeError /\
  scan_entry (demo_fs false) "/music" "Two.mp3" = Raise UnboundLocalError.
Proof.
  split; [vm_compute; reflexivity |].
  apply (scan_entry_untagged (demo_fs false) "/music" "Two.mp3" AttributeError 2097152);
    vm_compute; reflexivity.
Defined.

Lemma toggle_play_after_failed_load_witness :
  music_load "/music/Bad.mp3" (mixer sBad) = None /\
  (let s2 := snd (toggle_play (demo_fs true) (snd (toggle_play (demo_fs true) sBad))) in
   is_playing s2 = true /\ current_song s2 = col_title rowBad /\
   music_loaded (mixer s2) = music_loaded (mixer sBad) /\
   (music_loaded (mixer sBad) = None -> music_busy (mixer s2) = false)).
Proof.
  split; [vm_compute; reflexivity |].
  apply (toggle_play_after_failed_load (demo_fs true) sBad 2 rowBad []);
    vm_compute; first [reflexivity | discriminate].
Defined.

Lemma play_next_breaks_spec_witness :
  is_playing sPlayA = true /\
  abstract (snd (play_next (demo_fs true) sPlayA)) = Paused /\
  ~ spec_step (abstract sPlayA) CmdNext (abstract (snd (play_next (demo_fs true) sPlayA))).
Proof.
  split; [vm_compute; reflexivity |].
  apply (play_next_breaks_spec (demo_fs true) sPlayA 0 rowTwo);
    [apply player_invb_sound | | |]; vm_compute; reflexivity.
Defined.

Lemma play_next_while_playing_witness :
  let s' := snd (play_next (demo_fs true) sPlayA) in
  selected s' = Some 1%nat /\ is_playing s' = false /\
  music_busy (mixer s') = false /\ current_song s' = current_song sPlayA /\
  music_loaded (mixer s') = music_loaded (mixer sPlayA).
Proof. apply (play_next_while_playing (demo_fs true) sPlayA 0 rowTwo); vm_compute; reflexivity. Defined.

Lemma toggle_play_same_title_witness :
  music_loaded (mixer sDup) = Some "/dup/A-Song.mp3" /\ selected_items sDup = [(1%nat, rowB)] /\
  (let s' := snd (toggle_play (demo_fs true) sDup) in
   is_playing s' = true /\ music_loaded (mixer s') = music_loaded (mixer sDup)).
Proof.
  split; [vm_compute; reflexivity |]. split; [vm_compute; reflexivity |].
  apply (toggle_play_same_title (demo_fs true) sDup 1 rowB []); vm_compute; reflexivity.
Defined.

Lemma open_folder_no_mp3_witness :
  open_folder (demo_fs true) "/covers" (init_player pg_init) =
    (Ok tt, set_tree [] None (set_folder_path "/covers" (init_player pg_init))).
Proof.
  apply (open_folder_no_mp3 (demo_fs true) "/covers" ["front.jpg"; "back.png"]);
    [discriminate | reflexivity | repeat constructor].
Defined.

Lemma scan_entries_paths_witness :
  map item_path (scan_entries (demo_fs true) "/music" ["A-One.mp3"; "cover.jpg"; "Two.mp3"]).1 =
  map (os_path_join "/music")
    (List.filter (fun n => py_endswith n ".mp3") ["A-One.mp3"; "cover.jpg"; "Two.mp3"]).
Proof. apply (scan_entries_paths (demo_fs true)). vm_compute. reflexivity. Defined.

Lemma play_previous_first_witness :
  selected sA = Some 0%nat /\ play_previous (demo_fs true) sA = (Ok tt, sA).
Proof.
  split; [vm_compute; reflexivity |].
  apply (play_previous_first (demo_fs true)). vm_compute. reflexivity.
Defined.

Lemma play_next_last_witness :
  selected sBad = Some 2%nat /\ play_next (demo_fs true) sBad = (Ok tt, sBad).
Proof.
  split; [vm_compute; reflexivity |].
  apply (play_next_last (demo_fs true) sBad 2); vm_compute; reflexivity.
Defined.

Lemma toggle_play_twice_witness :
  let m1 := mkPg (Some "/music/A-One.mp3") 125700 None false 1 in
  let m2 := mkPg (Some "/music/A-One.mp3") 125700 (Some 0) false 1 in
  music_load "/music/A-One.mp3" (mixer sA) = Some m1 /\
  (let s1 := snd (toggle_play (demo_fs true) sA) in
   is_playing s1 = true /\ music_busy (mixer s1) = true /\
   toggle_play (demo_fs true) s1 = (Ok tt, set_is_playing false (set_mixer (music_pause m2) s1)) /\
   music_loaded (music_pause m2) = Some (item_path rowA)).
Proof.
  intros m1 m2. split; [vm_compute; reflexivity |].
  apply (toggle_play_twice (demo_fs true) sA 0 rowA [] m1 m2 "Artist A" "One" "2:05" "4 MB" 125);
    vm_compute; first [reflexivity | discriminate].
Defined.

Lemma set_volume_spec_witness :
  music_volume (mixer (snd (set_volume 50 (init_player pg_init)))) = 0.5%float.
Proof.
  destruct (set_volume_spec 50 (init_player pg_init) ltac:(lia)) as (_ & Hv & _).
  rewrite Hv. vm_compute. reflexivity.
Defined.

Lemma set_volume_0_then_100_witness :
  let s0 := snd (set_volume 0 sPlayA) in
  let s1 := snd (set_volume 100 s0) in
  music_volume (mixer s0) = 0%float /\ music_volume (mixer s1) = 1%float.
Proof. apply set_volume_0_then_100. Defined.

Lemma update_progress_spec_witness :
  let s' := snd (update_progress sPlayA) in
  fst (update_progress sPlayA) = Ok tt /\
  (is_playing sPlayA = false -> s' = sPlayA) /\
  (is_playing sPlayA = true ->
     current_position s' = music_get_pos (mixer sPlayA) / 1000 /\
     -1 <= current_position s' /\
     (music_busy (mixer sPlayA) = true -> 0 <= current_position s')).
Proof. apply update_progress_spec. Defined.

Lemma open_folder_while_playing_witness :
  is_playing sPlayA = true /\
  (let s' := snd (open_folder (demo_fs true) "/dup" sPlayA) in
   song_treeview s' = (scan_entries (demo_fs true) "/dup" ["A-Song.mp3"; "B-Song.mp3"]).1 /\
   selected s' = None /\ is_playing s' = is_playing sPlayA /\
   current_song s' = current_song sPlayA /\ mixer s' = mixer sPlayA).
Proof.
  split; [vm_compute; reflexivity |].
  apply (open_folder_while_playing (demo_fs true)); [discriminate | reflexivity | vm_compute; reflexivity].
Defined.

Lemma toggle_play_no_selection_witness :
  selected_items (init_player pg_init) = [] /\
  toggle_play (demo_fs true) (init_player pg_init) = (Ok tt, init_player pg_init).
Proof.
  split; [reflexivity |]. apply (toggle_play_no_selection (demo_fs true)). reflexivity.
Defined.

Lemma scan_entries_basenames_witness :
  map (fun it => os_path_basename (item_path it))
    (scan_entries (demo_fs true) "/music" ["A-One.mp3"; "cover.jpg"; "Two.mp3"; "Bad.mp3"]).1 =
  ["A-One.mp3"; "Two.mp3"; "Bad.mp3"].
Proof.
  apply (scan_entries_basenames (demo_fs true)); [repeat constructor | vm_compute; reflexivity].
Defined.

Lemma set_volume_monotone_witness :
  (music_volume (mixer (snd (set_volume 7 sPlayA))) <?
   music_volume (mixer (snd (set_volume (7 + 1) sPlayA))))%float = true.
Proof. apply set_volume_monotone. lia. Defined.

Lemma move_slider_spec_witness :
  let s := init_player (M := PgMusic) pg_init in
  slider_ok (volume_slider s) /\ volume_slider (snd (move_slider (-7) s)) = mkSlider 0 100 0 /\
  py_true_div 0 100 = Ok (music_volume (mixer (snd (move_slider (-7) s)))).
Proof.
  cbv zeta. assert (H : slider_ok (volume_slider (init_player (M := PgMusic) pg_init)))
    by (split; [reflexivity | split; [reflexivity | vm_compute; split; discriminate]]).
  destruct (move_slider_spec (-7) _ H) as (_ & Hsl & _ & Hch).
  split; [exact H | split; [exact Hsl |]].
  apply (proj1 (Hch ltac:(vm_compute; discriminate))).
Defined.

Lemma track_end_reached_witness :
  is_playing sPlayA = true /\
  exists s', run (demo_fs true) (Running sPlayA) (ticks 126) = Running s' /\
    pg_busy (mixer s') = false /\ pg_get_pos (mixer s') = -1 /\ is_playing s' = true /\
    current_position s' = -1 /\ song_treeview s' = song_treeview sPlayA /\
    selected s' = selected sPlayA.
Proof.
  split; [vm_compute; reflexivity |].
  apply (track_end_reached demo_decode (demo_fs true) sPlayA "/music/A-One.mp3" 125700 0 1%float);
    [vm_compute; reflexivity | vm_compute; reflexivity | lia | simpl; lia].
Defined.

Lemma track_progress_witness :
  mixer sPlayA = mkPg (Some "/music/A-One.mp3") 125700 (Some 0) false 1%float /\
  exists s', run (demo_fs true) (Running sPlayA) (ticks 125) = Running s' /\
    mixer s' = mkPg (Some "/music/A-One.mp3") 125700 (Some 125000) false 1%float /\
    pg_busy (mixer s') = true /\ is_playing s' = true /\
    ((0 < 125)%nat -> current_position s' = 125).
Proof.
  split; [vm_compute; reflexivity |].
  apply (track_progress demo_decode (demo_fs true) sPlayA "/music/A-One.mp3" 125700 0 1%float 125);
    [vm_compute; reflexivity | vm_compute; reflexivity | lia | simpl; lia].
Defined.

Lemma reachable_rows_typed_witness :
  reachable (demo_fs true) pg_init sPlayA /\
  Forall (fun it => (exists d, parse_duration_label (col_duration it) = Some d) /\
                    col_duration it <> "N/A" /\ exists sz, col_size it = size_label sz)
    (song_treeview sPlayA).
Proof.
  assert (H : reachable (demo_fs true) pg_init sPlayA)
    by (apply demo_after_reachable; vm_compute; by eexists).
  split; [exact H | exact (reachable_rows_typed (demo_fs true) pg_init pg_init_volume sPlayA H)].
Defined.

Lemma reachable_bar_range_witness :
  reachable (demo_fs true) pg_init sPlayA /\
  pb_min (progress_bar sPlayA) = 0 /\
  (pb_max (progress_bar sPlayA) = Z.max 0 (song_duration sPlayA) \/
   (song_duration sPlayA = 0 /\ pb_max (progress_bar sPlayA) = 100)).
Proof.
  assert (H : reachable (demo_fs true) pg_init sPlayA)
    by (apply demo_after_reachable; vm_compute; by eexists).
  split; [exact H | exact (reachable_bar_range (demo_fs true) pg_init sPlayA H)].
Defined.

Lemma track_bar_witness :
  progress_bar sPlayA = mkBar 0 125 0 /\
  exists s', run (demo_fs true) (Running sPlayA) (ticks 125) = Running s' /\
    progress_bar s' = mkBar 0 125 125.
Proof.
  split; [vm_compute; reflexivity |].
  apply (track_bar demo_decode (demo_fs true) sPlayA "/music/A-One.mp3" 125700 0 1%float 125 125);
    [vm_compute; reflexivity | vm_compute; reflexivity | lia | vm_compute; reflexivity
    | vm_compute; reflexivity | vm_compute; reflexivity | lia | simpl; lia].
Defined.

Lemma reopen_then_play_pauses_witness :
  is_playing sPlayA = true /\
  exists s', run (demo_fs true) (Running sPlayA) [OpenFolder "/dup"; SelectRow (Some 1%nat); ClickPlay] =
               Running s' /\
    selected s' = Some 1%nat /\ is_playing s' = false /\ mixer s' = music_pause (mixer sPlayA) /\
    current_song s' = current_song sPlayA /\
    song_treeview s' = (scan_entries (demo_fs true) "/dup" ["A-Song.mp3"; "B-Song.mp3"]).1.
Proof.
  split; [vm_compute; reflexivity |].
  apply (reopen_then_play_pauses (demo_fs true) sPlayA "/dup" ["A-Song.mp3"; "B-Song.mp3"] 1 rowB);
    [vm_compute; reflexivity | discriminate | reflexivity | vm_compute; reflexivity
    | vm_compute; reflexivity].
Defined.

(** C39: the spec's session invariant (section 2: "if [playing] is true,
    [cursor] must reference a valid playlist entry and the collaborator
    must have that track loaded") does not hold of the program: there are
    reachable states that play with no row selected (a folder opened
    while playing) and that play with the selected row's file not loaded
    (the second Play after a failed load). *)
Theorem spec_session_invariant_fails :
  exists s1 s2,
    reachable (demo_fs true) pg_init s1 /\ is_playing s1 = true /\ selected_items s1 = [] /\
    reachable (demo_fs true) pg_init s2 /\ is_playing s2 = true /\
    exists i it, selected_items s2 = [(i, it)] /\ music_loaded (mixer s2) <> Some (item_path it).
Proof.
  exists sReopen, sBadTwice.
  split; [apply demo_after_reachable; vm_compute; by eexists |].
  split; [vm_compute; reflexivity |]. split; [vm_compute; reflexivity |].
  split; [apply demo_after_reachable; vm_compute; by eexists |].
  split; [vm_compute; reflexivity |].
  exists 2%nat, rowBad. split; [vm_compute; reflexivity | vm_compute; discriminate].
Qed.

Lemma open_folder_aborts_witness :
  step_app (demo_fs false) (Running (init_player pg_init)) (OpenFolder "/music") =
    Aborted UnboundLocalError /\
  step_app (demo_fs true) (Running (init_player pg_init)) (OpenFolder "/nope") = Aborted OSError.
Proof.
  split.
  - apply (proj2 (open_folder_aborts (demo_fs false) (init_player pg_init) "/music"
                    UnboundLocalError ltac:(discriminate))).
    right. exists ["A-One.mp3"; "cover.jpg"; "Two.mp3"; "Bad.mp3"].
    split; vm_compute; reflexivity.
  - apply (proj2 (open_folder_aborts (demo_fs true) (init_player pg_init) "/nope"
                    OSError ltac:(discriminate))).
    left. vm_compute. reflexivity.
Defined.


Lemma play_previous_while_playing_witness :
  let s' := snd (play_previous (demo_fs true) sPlayTwo) in
  selected s' = Some 0%nat /\ is_playing s' = false /\ music_busy (mixer s') = false /\
  current_song s' = current_song sPlayTwo /\ music_loaded (mixer s') = music_loaded (mixer sPlayTwo).
Proof.
  apply (play_previous_while_playing (demo_fs true) sPlayTwo 0 rowA);
    vm_compute; first [reflexivity | eexists; reflexivity].
Defined.
